(** * qt_binder.loopback_guard: the reentrant loopback guard

  A shallow embedding of [qt_binder/loopback_guard.py] and the properties
  of its two classes, [LoopbackGuard] and [LoopbackContext].

  Python objects are mutable and shared; the embedding passes the state of
  every object explicitly.  A method is a function from the state of its
  receiver to an outcome (a returned value or a raised exception) and the
  state the receiver is left in: a raised exception does not roll back the
  mutations made before it. *)

From stdpp Require Import gmap strings list fin_maps pretty.

Local Open Scope Z_scope.

(** ** The fragment of Python the module relies on *)

Module Py.

Inductive exception :=
| TypeError                       (* unhashable type *)
| KeyError                        (* del d[k] with k absent *)
| ReferenceError                  (* a reference to no live object *)
| UserException (name : string).  (* whatever a guarded block raises *)

Inductive outcome (A : Type) :=
| Return (a : A)
| Raise (e : exception).
Arguments Return {A} a.
Arguments Raise {A} e.

(** Computations over a mutable state [S]. *)
Definition M (S A : Type) : Type := S -> outcome A * S.

Definition ret {S A} (a : A) : M S A := fun s => (Return a, s).
Definition raise {S A} (e : exception) : M S A := fun s => (Raise e, s).
Definition bind {S A B} (m : M S A) (f : A -> M S B) : M S B :=
  fun s =>
    match m s with
    | (Return a, s') => f a s'
    | (Raise e, s') => (Raise e, s')
    end.
Definition get {S} : M S S := fun s => (Return s, s).
Definition put {S} (s : S) : M S unit := fun _ => (Return tt, s).

(** [for x in xs: body(x)] *)
Fixpoint for_each {S A} (body : A -> M S unit) (xs : list A) : M S unit :=
  match xs with
  | [] => ret tt
  | x :: xs' => bind (body x) (fun _ => for_each body xs')
  end.

(** [tuple(items)]: an immutable snapshot of the elements of an iterable,
    in iteration order. Iterables are modelled by the list of their
    elements, so the snapshot is that list. *)
Definition tuple {A} (items : list A) : list A := items.

(** A Python value offered as a dictionary key: either it is hashable, and
    then it denotes a key of [K] (equal keys are equal values of [K]), or it
    is not (a list, a dict, a set ...). Objects whose own [__hash__] or
    [__eq__] raise something else, and iterables that raise while they are
    iterated, are not covered. *)
Inductive object (K U : Type) :=
| Hashable (k : K)
| Unhashable (u : U).
Arguments Hashable {K U} k.
Arguments Unhashable {K U} u.

(** What a dictionary does with a key before anything else. *)
Definition hash {K U S} (item : object K U) : M S K :=
  match item with
  | Hashable k => ret k
  | Unhashable _ => raise TypeError
  end.

(** The context-manager protocol. [exit] receives the exception in flight,
    if any, and answers whether to swallow it. *)
Class ContextManager (C W : Type) := {
  enter : C -> M W unit;
  exit : C -> option exception -> M W bool;
}.

(** [with mgr: body] *)
Definition with_stmt {C W} `{ContextManager C W}
    (mgr : C) (body : M W unit) : M W unit :=
  fun w =>
    match enter mgr w with
    | (Raise e, w1) => (Raise e, w1)
    | (Return _, w1) =>
        match body w1 with
        | (Return _, w2) =>
            match exit mgr None w2 with
            | (Return _, w3) => (Return tt, w3)
            | (Raise e', w3) => (Raise e', w3)
            end
        | (Raise e, w2) =>
            match exit mgr (Some e) w2 with
            | (Return true, w3) => (Return tt, w3)
            | (Return false, w3) => (Raise e, w3)
            | (Raise e', w3) => (Raise e', w3)
            end
        end
    end.

(** A store of objects of one class, addressed by reference, and a method
    call through a reference. *)
Definition loc := positive.

Definition invoke {T A} (self : loc) (method : M T A) : M (gmap loc T) A :=
  fun h =>
    match h !! self with
    | Some o => let '(r, o') := method o in (r, <[self := o']> h)
    | None => (Raise ReferenceError, h)
    end.

End Py.

Declare Scope py_scope.
Delimit Scope py_scope with py.
Notation "x <- m ;; k" := (Py.bind m (fun x => k))
(at level 100, m at next level, k at level 200, right associativity)
: py_scope.
Notation "m ;; k" := (Py.bind m (fun _ => k))
(at level 100, k at level 200, right associativity) : py_scope.

(** ** [collections.defaultdict(int)], as far as the guard uses it

    The dictionary is a finite map from keys to counts. The order in which
    Python keeps the keys, that of their insertion, is not part of it: it
    shows in the [repr] of a dictionary of several keys and nowhere else in
    the guard. *)

Module DefaultDict.
Section methods.
Context `{Countable K} {U : Type}.
Local Abbreviation dict := (gmap K Z).
Local Abbreviation item := (Py.object K U).

(** [int()] is the default factory; a missing key is inserted with it. *)
Definition __missing__ (k : K) : Py.M dict Z :=
  fun d => (Py.Return 0, <[k := 0]> d).

(** [d[item]] as an expression. *)
Definition __getitem__ (it : item) : Py.M dict Z :=
  (k <- Py.hash it ;;
   d <- Py.get ;;
   match d !! k with
   | Some v => Py.ret v
   | None => __missing__ k
   end)%py.

(** [d[item] = v] *)
Definition __setitem__ (it : item) (v : Z) : Py.M dict unit :=
  (k <- Py.hash it ;;
   d <- Py.get ;;
   Py.put (<[k := v]> d))%py.

(** [del d[item]] *)
Definition __delitem__ (it : item) : Py.M dict unit :=
  (k <- Py.hash it ;;
   d <- Py.get ;;
   match d !! k with
   | Some _ => Py.put (delete k d)
   | None => Py.raise Py.KeyError
   end)%py.

(** [item in d]: a plain membership test, [__missing__] is not involved. *)
Definition __contains__ (it : item) : Py.M dict bool :=
  (k <- Py.hash it ;;
   d <- Py.get ;;
   Py.ret (bool_decide (is_Some (d !! k))))%py.

(** Truth value of a dictionary: it is non-empty. *)
Definition __bool__ (d : dict) : bool := negb (bool_decide (d = ∅)).

(** [d[item] += n], that is [d[item] = d[item] + n]. *)
Definition iadd (it : item) (n : Z) : Py.M dict unit :=
  (v <- __getitem__ it ;;
   __setitem__ it (v + n))%py.

(** [d[item] -= n], that is [d[item] = d[item] - n]. *)
Definition isub (it : item) (n : Z) : Py.M dict unit :=
  (v <- __getitem__ it ;;
   __setitem__ it (v - n))%py.

(** [repr(dict(d))], given the [repr] of the keys. The entries come in the
    order of [map_to_list], where Python lists them in insertion order. *)
Definition repr (key_repr : K -> string) (d : dict) : string :=
  "{" +:+
  String.concat ", "
    (map (fun kv => key_repr kv.1 +:+ ": " +:+ pretty kv.2) (map_to_list d))
  +:+ "}".

End methods.
End DefaultDict.

(** ** class LoopbackContext *)

Module LoopbackContext.

(** The context manager is written against whatever object it is handed as
    its guard: all it asks of it is an [acquire] and a [release] method,
    called through the reference [G] in a world [W]. *)
Class Guard (G W I : Type) := {
  acquire : G -> list I -> Py.M W unit;
  release : G -> list I -> Py.M W unit;
}.

Section methods.
Context {G W I : Type} `{Guard G W I}.

(** [__slots__ = ('_guard', '_items')] *)
Record t := mk { _guard : G; _items : list I }.

Definition __init__ (guard : G) (items : list I) : t :=
  {| _guard := guard; _items := Py.tuple items |}.

Definition __enter__ (self : t) : Py.M W unit :=
  acquire (_guard self) (_items self).

(** The three arguments of [__exit__] describe the exception in flight; the
    method ignores them. It returns [None], which is false. *)
Definition __exit__ (self : t) (exc : option Py.exception) : Py.M W bool :=
  (release (_guard self) (_items self) ;;
   Py.ret false)%py.

#[global] Instance context_manager : Py.ContextManager t W :=
  {| Py.enter := __enter__; Py.exit := __exit__ |}.

End methods.
Arguments t : clear implicits.
End LoopbackContext.

(** ** class LoopbackGuard *)

Module LoopbackGuard.
Section methods.
Context `{Countable K} {U : Type}.
Local Abbreviation dict := (gmap K Z).
Local Abbreviation item := (Py.object K U).

(** [__slots__ = ('locked_items',)]: [None], or the one [defaultdict] that
    the slot refers to. *)
Record t := mk { locked_items : option dict }.

Definition __init__ : t := {| locked_items := None |}.

Definition __call__ (self : Py.loc) (items : list item)
  : Py.M (gmap Py.loc t) (LoopbackContext.t Py.loc item) :=
  Py.ret (LoopbackContext.__init__ self (Py.tuple items)).

Definition __contains__ (it : item) : Py.M t bool :=
  fun self =>
    match locked_items self with
    | Some d =>
        let '(r, d') := DefaultDict.__contains__ it d in
        (r, {| locked_items := Some d' |})
    | None => (Py.Return false, self)
    end.

(** The local [items] of [__repr__]: [None] or a copy of the mapping. *)
Definition repr_items (self : t) : option dict :=
  match locked_items self with
  | None => None
  | Some d => Some d
  end.

Definition __repr__ (key_repr : K -> string) (self : t) : string :=
  "<LoopbackGuard: " +:+
  match repr_items self with
  | None => "None"
  | Some d => DefaultDict.repr key_repr d
  end +:+ ">".

(** The local variable [locked_items] and the slot refer to the same
    dictionary, so the loop mutates the dictionary of the guard; it is there
    with whatever was done to it when an iteration raises. *)
Definition acquire (items : list item) : Py.M t unit :=
  fun self =>
    let d :=
      match locked_items self with
      | None => ∅
      | Some d => d
      end in
    let '(r, d') :=
      Py.for_each (fun it => DefaultDict.iadd it 1) items d in
    (r, {| locked_items := Some d' |}).

Definition release (items : list item) : Py.M t unit :=
  fun self =>
    match locked_items self with
    | Some d =>
        let '(r, d') :=
          Py.for_each
            (fun it =>
               DefaultDict.isub it 1 ;;
               v <- DefaultDict.__getitem__ it ;;
               if v <=? 0 then DefaultDict.__delitem__ it else Py.ret tt)%py
            items d in
        match r with
        | Py.Return _ =>
            if negb (DefaultDict.__bool__ d')
            then (Py.Return tt, {| locked_items := None |})
            else (Py.Return tt, {| locked_items := Some d' |})
        | Py.Raise e => (Py.Raise e, {| locked_items := Some d' |})
        end
    | None => (Py.Return tt, self)
    end.

End methods.
Arguments t K {_ _}.

(** A [LoopbackGuard] held by reference is what a [LoopbackContext] expects
    of its guard. *)
#[global] Instance guard `{Countable K} {U : Type}
  : LoopbackContext.Guard Py.loc (gmap Py.loc (t K)) (Py.object K U) :=
  {| LoopbackContext.acquire self items := Py.invoke self (acquire items);
     LoopbackContext.release self items := Py.invoke self (release items) |}.

End LoopbackGuard.

(** ** The vocabulary of the properties *)

Section vocabulary.
Context `{Countable K} {U : Type}.
Local Abbreviation dict := (gmap K Z).
Local Abbreviation item := (Py.object K U).
Local Abbreviation guard := (LoopbackGuard.t K).

(** The acquisition count of a key: its value in the mapping, none when it
    is absent. *)
Definition dcount (k : K) (d : dict) : Z := default 0 (d !! k).

(** One iteration of the loop of [acquire] and of the loop of [release], on
    a hashable item, as plain functions on the mapping. *)
Definition incr (k : K) (d : dict) : dict := <[k := dcount k d + 1]> d.

Definition decr (k : K) (d : dict) : dict :=
  if dcount k d - 1 <=? 0 then delete k d else <[k := dcount k d - 1]> d.

(** The body of the loop of [release]. *)
Definition release_body (it : item) : Py.M dict unit :=
  (DefaultDict.isub it 1 ;;
   v <- DefaultDict.__getitem__ it ;;
   if v <=? 0 then DefaultDict.__delitem__ it else Py.ret tt)%py.

(** Every stored count is at least one. *)
Definition dict_wf (d : dict) : Prop := map_Forall (fun _ v => 1 <= v) d.

(** The mapping a guard stands for: nothing is locked when none is
    allocated. *)
Definition mapping (g : guard) : dict :=
  default ∅ (LoopbackGuard.locked_items g).

Definition count (k : K) (g : guard) : Z := dcount k (mapping g).

(** The count invariant. *)
Definition guard_wf (g : guard) : Prop := dict_wf (mapping g).

Definition idle (g : guard) : Prop := LoopbackGuard.locked_items g = None.

(** [n] calls in a row. *)
Fixpoint times {S} (n : nat) (call : Py.M S unit) : Py.M S unit :=
  match n with
  | O => Py.ret tt
  | S n' => (call ;; times n' call)%py
  end.

(** The guard after a method has run on it, and what the method answered. *)
Definition after {S A} (m : Py.M S A) (s : S) : S := (m s).2.
Definition answer {S A} (m : Py.M S A) (s : S) : Py.outcome A := (m s).1.

(** A call of one of the two methods, to speak of sequences of calls. *)
Inductive call :=
| Acquire (items : list item)
| Release (items : list item).

Definition perform (c : call) : Py.M guard unit :=
  match c with
  | Acquire items => LoopbackGuard.acquire items
  | Release items => LoopbackGuard.release items
  end.

Definition is_empty_acquire (c : call) : bool :=
  match c with
  | Acquire [] => true
  | _ => false
  end.

Definition no_empty_acquire (calls : list call) : bool :=
  forallb (fun c => negb (is_empty_acquire c)) calls.

Definition ends_with_release (calls : list call) : bool :=
  match last calls with
  | Some (Release _) => true
  | _ => false
  end.

End vocabulary.
Arguments call : clear implicits.

(** *** A concrete setting

    Attribute names are the keys, Python lists of names the unhashable
    items; guard number one sits in the store. *)

Definition attr (name : string) : Py.object string (list string) :=
  Py.Hashable name.

Definition a_list (names : list string) : Py.object string (list string) :=
  Py.Unhashable names.

(** [repr] of a string key, without escapes. *)
Definition quoted (name : string) : string := "'" +:+ name +:+ "'".

Definition fresh_guard : LoopbackGuard.t string := LoopbackGuard.__init__.

Definition store : gmap Py.loc (LoopbackGuard.t string) :=
  {[ 1%positive := fresh_guard ]}.

(** *** Further vocabulary: occurrences, blocks that give the guard back *)

Section more_vocabulary.
Context `{Countable K} {U : Type}.

(** How many times a key occurs in a sequence of keys. *)
Fixpoint occurrences (k : K) (ks : list K) : Z :=
  match ks with
  | [] => 0
  | k' :: ks' => (if decide (k' = k) then 1 else 0) + occurrences k ks'
  end.

(** A block of code that, run with a guard obeying the count invariant in
    the store, ends (by returning or by raising) with that guard still in
    the store, the mapping it stands for as the block found it. *)
Definition gives_guard_back
    (self : Py.loc) (body : Py.M (gmap Py.loc (LoopbackGuard.t K)) unit)
  : Prop :=
  forall h g,
    h !! self = Some g -> guard_wf g ->
    exists g',
      after body h !! self = Some g' /\ mapping g' = mapping g /\ guard_wf g'.

End more_vocabulary.

(** ** [collections.Counter], as far as [load_ui] uses it *)

Module Counter.

(** [c[name]]: a missing name counts zero, and is not stored. *)
Definition __getitem__ (name : string) (c : gmap string Z) : Z :=
  default 0 (c !! name).

(** [c[name] += n], that is [c[name] = c[name] + n]. *)
Definition iadd (name : string) (n : Z) (c : gmap string Z) : gmap string Z :=
  <[name := __getitem__ name c + n]> c.

(** [c.items()]. The order is the order of the dictionary, which this
    model takes from [map_to_list]. *)
Definition items (c : gmap string Z) : list (string * Z) := map_to_list c.

End Counter.

(** ** qt_binder.qt.ui_loader *)

Module ui_loader.

(** Truth value of a string: it is not empty. *)
Definition truth (name : string) : bool :=
  match name with
  | EmptyString => false
  | String _ _ => true
  end.

(** [name.startswith('_')] *)
Definition startswith_underscore (name : string) : bool :=
  String.prefix "_" name.

(** The second loop of both branches: the names that were seen exactly once
    and do not start with an underscore, in the order of [items()]. *)
Definition names_to_bind (names_hist : gmap string Z) : list string :=
  foldl
    (fun names item =>
       let '(name, count) := item in
       if (count =? 1) && negb (startswith_underscore name)
       then names ++ [name]
       else names)
    [] (Counter.items names_hist).

(** The branch for PyQt. The loader of the toolkit and the two methods of
    its objects that the function calls are taken as given. *)
Module pyqt.
Section load_ui.
Context {Ui QObject : Type}.
Context (loadUi : string -> Py.outcome Ui).
Context (children : Ui -> list QObject).
Context (objectName : QObject -> string).

(** The first loop: the histogram of the names of the children. *)
Definition names_hist (ui : Ui) : gmap string Z :=
  foldl
    (fun hist child =>
       let name := objectName child in
       if truth name then Counter.iadd name 1 hist else hist)
    ∅ (children ui).

Definition load_ui (path : string) : Py.outcome (Ui * list string) :=
  match loadUi path with
  | Py.Raise e => Py.Raise e
  | Py.Return ui => Py.Return (ui, names_to_bind (names_hist ui))
  end.

End load_ui.
End pyqt.

(** The branch for PySide: the class [RecordingUiLoader]. The methods of
    the base class that build the layout or the widget are taken as given;
    they do not touch [names]. *)
Module RecordingUiLoader.
Section methods.
Context {Parent Layout Widget : Type}.
Context (QUiLoader_createLayout : string -> Parent -> string -> Layout).
Context (QUiLoader_createWidget : string -> Parent -> string -> Widget).

Record t := mk { names : gmap string Z }.

Definition __init__ : t := {| names := ∅ |}.

Definition to_be_bound (self : t) : list string :=
  names_to_bind (names self).

Definition createLayout (className : string) (parent : Parent) (name : string)
  : t -> Layout * t :=
  fun self =>
    let self' :=
      if truth name
      then {| names := Counter.iadd name 1 (names self) |}
      else self in
    (QUiLoader_createLayout className parent name, self').

Definition createWidget (className : string) (parent : Parent) (name : string)
  : t -> Widget * t :=
  fun self =>
    let self' :=
      if truth name
      then {| names := Counter.iadd name 1 (names self) |}
      else self in
    (QUiLoader_createWidget className parent name, self').

(** What the toolkit asks of the loader while it reads a file: a layout or
    a widget, one after the other. *)
Inductive request :=
| NewLayout (className : string) (parent : Parent) (name : string)
| NewWidget (className : string) (parent : Parent) (name : string).

Definition requested_name (r : request) : string :=
  match r with
  | NewLayout _ _ name => name
  | NewWidget _ _ name => name
  end.

Definition serve (self : t) (r : request) : t :=
  match r with
  | NewLayout className parent name =>
      (createLayout className parent name self).2
  | NewWidget className parent name =>
      (createWidget className parent name self).2
  end.

End methods.
End RecordingUiLoader.

End ui_loader.

(** ** What the loops do to the dictionary *)

Section dictionary.
Context `{Countable K} {U : Type}.
Local Abbreviation dict := (gmap K Z).
Local Abbreviation item := (Py.object K U).

Lemma acquire_body_hashable k (d : dict) :
  DefaultDict.iadd (U:=U) (Py.Hashable k) 1 d = (Py.Return tt, incr k d).
Proof.
  unfold DefaultDict.iadd, DefaultDict.__getitem__, DefaultDict.__setitem__,
    DefaultDict.__missing__, incr, dcount, Py.bind, Py.get, Py.put, Py.ret.
  simpl. destruct (d !! k) as [v|] eqn:E; simpl; [done|].
  by rewrite insert_insert_eq.
Qed.

Lemma release_body_hashable k (d : dict) :
  release_body (U:=U) (Py.Hashable k) d = (Py.Return tt, decr k d).
Proof.
  unfold release_body, DefaultDict.isub, DefaultDict.__getitem__,
    DefaultDict.__setitem__, DefaultDict.__delitem__,
    DefaultDict.__missing__, decr, dcount, Py.bind, Py.get, Py.put, Py.ret.
  simpl. destruct (d !! k) as [v|] eqn:E; simpl.
  - rewrite lookup_insert_eq. destruct (v - 1 <=? 0) eqn:Ev; simpl; [|done].
    by rewrite lookup_insert_eq, delete_insert_eq.
  - rewrite insert_insert_eq, lookup_insert_eq. simpl.
    by rewrite lookup_insert_eq, delete_insert_eq.
Qed.

Lemma acquire_body_unhashable (u : U) (d : dict) :
  DefaultDict.iadd (K:=K) (Py.Unhashable u) 1 d = (Py.Raise Py.TypeError, d).
Proof. reflexivity. Qed.

Lemma release_body_unhashable (u : U) (d : dict) :
  release_body (Py.Unhashable u) d = (Py.Raise Py.TypeError, d).
Proof. reflexivity. Qed.

(** A loop over hashable items runs to its end. *)
Lemma for_each_hashable (body : item -> Py.M dict unit) (f : K -> dict -> dict) :
  (forall k d, body (Py.Hashable k) d = (Py.Return tt, f k d)) ->
  forall ks d,
    Py.for_each body (Py.Hashable <$> ks) d
    = (Py.Return tt, foldl (fun d k => f k d) d ks).
Proof.
  intros Hbody ks. induction ks as [|k ks IH]; intros d; [done|].
  simpl. unfold Py.bind. rewrite Hbody. apply IH.
Qed.

(** A property of the mapping that every iteration keeps is kept by the
    loop, whether it ends or raises. *)
Lemma for_each_invariant {S A} (P : S -> Prop) (body : A -> Py.M S unit) :
  (forall x s, P s -> P (body x s).2) ->
  forall xs s, P s -> P (Py.for_each body xs s).2.
Proof.
  intros Hbody xs. induction xs as [|x xs IH]; intros s Hs; [done|].
  simpl. unfold Py.bind. specialize (Hbody x s Hs).
  destruct (body x s) as [[[]|e] s1]; simpl in *; [by apply IH|done].
Qed.

(** The same for a property that the iterations keep when they return, on
    the elements that satisfy [Q]. *)
Lemma for_each_returns {S A} (P : S -> Prop) (Q : A -> Prop)
    (body : A -> Py.M S unit) :
  (forall x s s', Q x -> P s -> body x s = (Py.Return tt, s') -> P s') ->
  forall xs s s',
    Forall Q xs -> P s -> Py.for_each body xs s = (Py.Return tt, s') -> P s'.
Proof.
  intros Hbody xs. induction xs as [|x xs IH]; intros s s' HQ Hs; simpl.
  - by intros [= <-].
  - apply Forall_cons in HQ as [Hx HQ]. unfold Py.bind.
    destruct (body x s) as [[[]|e] s1] eqn:E; [|done].
    apply IH; [done|]. by apply (Hbody x s s1).
Qed.

Lemma for_each_app {S A} (body : A -> Py.M S unit) xs ys (s : S) :
  Py.for_each body (xs ++ ys) s
  = (Py.for_each body xs ;; Py.for_each body ys)%py s.
Proof.
  revert s. induction xs as [|x xs IH]; intros s; simpl; [done|].
  unfold Py.bind in *. destruct (body x s) as [[[]|e] s1]; [apply IH|done].
Qed.

Lemma dcount_incr k k' (d : dict) :
  dcount k' (incr k d) = if decide (k = k') then dcount k' d + 1 else dcount k' d.
Proof.
  unfold incr, dcount. rewrite lookup_insert.
  by destruct (decide (k = k')) as [->|].
Qed.

Lemma dcount_decr k k' (d : dict) :
  dcount k' (decr k d)
  = if decide (k = k') then Z.max 0 (dcount k' d - 1) else dcount k' d.
Proof.
  unfold decr, dcount.
  destruct (default 0 (d !! k) - 1 <=? 0) eqn:E.
  - rewrite lookup_delete. destruct (decide (k = k')) as [->|]; simpl; lia.
  - rewrite lookup_insert. destruct (decide (k = k')) as [->|]; simpl; lia.
Qed.

Lemma incr_wf k (d : dict) : dict_wf d -> dict_wf (incr k d).
Proof.
  intros Hd. apply map_Forall_insert_2; [|done].
  unfold dcount. destruct (d !! k) as [v|] eqn:E; simpl; [|lia].
  specialize (Hd k v E). simpl in Hd. lia.
Qed.

Lemma decr_wf k (d : dict) : dict_wf d -> dict_wf (decr k d).
Proof.
  intros Hd. unfold decr. destruct (dcount k d - 1 <=? 0) eqn:E.
  - by apply map_Forall_delete.
  - apply map_Forall_insert_2; [lia|done].
Qed.

Lemma dict_wf_empty : dict_wf (∅ : dict).
Proof. apply map_Forall_empty. Qed.

Lemma dcount_nonneg k (d : dict) : dict_wf d -> 0 <= dcount k d.
Proof.
  intros Hd. unfold dcount. destruct (d !! k) as [v|] eqn:E; simpl; [|lia].
  specialize (Hd k v E). simpl in Hd. lia.
Qed.

Lemma dcount_pos_iff k (d : dict) :
  dict_wf d -> (is_Some (d !! k) <-> 1 <= dcount k d).
Proof.
  intros Hd. unfold dcount. split.
  - intros [v E]. rewrite E. simpl. exact (Hd k v E).
  - destruct (d !! k); simpl; [eauto|lia].
Qed.

(** A mapping that obeys the invariant is empty exactly when every count is
    zero. *)
Lemma dict_empty_iff (d : dict) :
  dict_wf d -> (d = ∅ <-> forall k, dcount k d = 0).
Proof.
  intros Hd. split; [by intros ->|].
  intros Hz. apply map_eq. intros k. rewrite lookup_empty.
  destruct (d !! k) as [v|] eqn:E; [|done].
  specialize (Hz k). specialize (Hd k v E). unfold dcount in Hz.
  rewrite E in Hz. simpl in *. lia.
Qed.

Lemma incr_nonempty k (d : dict) : incr k d ≠ ∅.
Proof. apply insert_non_empty. Qed.

Lemma acquire_body_wf (it : item) (d : dict) :
  dict_wf d -> dict_wf (DefaultDict.iadd it 1 d).2.
Proof.
  destruct it as [k|u]; intros Hd.
  - rewrite acquire_body_hashable. by apply incr_wf.
  - by rewrite acquire_body_unhashable.
Qed.

Lemma release_body_wf (it : item) (d : dict) :
  dict_wf d -> dict_wf (release_body it d).2.
Proof.
  destruct it as [k|u]; intros Hd.
  - rewrite release_body_hashable. by apply decr_wf.
  - by rewrite release_body_unhashable.
Qed.

End dictionary.

(** ** What the methods do to the guard *)

Section guard.
Context `{Countable K} {U : Type}.
Local Abbreviation dict := (gmap K Z).
Local Abbreviation item := (Py.object K U).
Local Abbreviation guard := (LoopbackGuard.t K).

Lemma acquire_hashable ks (g : guard) :
  LoopbackGuard.acquire (U:=U) (Py.Hashable <$> ks) g
  = (Py.Return tt,
     LoopbackGuard.mk (Some (foldl (fun d k => incr k d) (mapping g) ks))).
Proof.
  unfold LoopbackGuard.acquire, mapping.
  rewrite (for_each_hashable _ incr) by apply acquire_body_hashable.
  by destruct (LoopbackGuard.locked_items g).
Qed.

Lemma release_allocated ks (d : dict) :
  LoopbackGuard.release (U:=U) (Py.Hashable <$> ks) (LoopbackGuard.mk (Some d))
  = (Py.Return tt,
     let d' := foldl (fun d k => decr k d) d ks in
     if bool_decide (d' = ∅) then LoopbackGuard.mk None
     else LoopbackGuard.mk (Some d')).
Proof.
  unfold LoopbackGuard.release. simpl.
  rewrite (for_each_hashable _ decr) by apply (release_body_hashable (U:=U)).
  unfold DefaultDict.__bool__. rewrite negb_involutive.
  by destruct (bool_decide _).
Qed.

Lemma release_idle (items : list item) (g : guard) :
  idle g -> LoopbackGuard.release items g = (Py.Return tt, g).
Proof. unfold idle, LoopbackGuard.release. by intros ->. Qed.

Lemma decr_empty k : decr k (∅ : dict) = ∅.
Proof. unfold decr, dcount. rewrite lookup_empty. simpl. apply delete_empty. Qed.

Lemma foldl_decr_empty ks : foldl (fun d k => decr k d) (∅ : dict) ks = ∅.
Proof. induction ks as [|k ks IH]; simpl; [done|]. by rewrite decr_empty. Qed.

(** On hashable items [release] returns, and the mapping the guard stands
    for has gone through the loop. *)
Lemma release_hashable ks (g : guard) :
  exists g',
    LoopbackGuard.release (U:=U) (Py.Hashable <$> ks) g = (Py.Return tt, g')
    /\ mapping g' = foldl (fun d k => decr k d) (mapping g) ks
    /\ (idle g' <-> idle g \/ mapping g' = ∅).
Proof.
  destruct g as [[d|]]; simpl.
  - rewrite release_allocated. simpl.
    destruct (bool_decide _) eqn:E.
    + apply bool_decide_eq_true in E. eexists; split; [done|].
      unfold mapping, idle; simpl. rewrite E. naive_solver.
    + apply bool_decide_eq_false in E. eexists; split; [done|].
      unfold mapping, idle; simpl. split; [done|].
      split; [discriminate|]. by intros [?|?].
  - exists (LoopbackGuard.mk None). rewrite release_idle by done.
    unfold mapping, idle; simpl. rewrite foldl_decr_empty. naive_solver.
Qed.

Lemma dcount_foldl_incr_notin k ks (d : dict) :
  k ∉ ks -> dcount k (foldl (fun d k => incr k d) d ks) = dcount k d.
Proof.
  revert d. induction ks as [|k' ks IH]; intros d Hk; simpl; [done|].
  apply not_elem_of_cons in Hk as [Hne Hk].
  rewrite IH by done. rewrite dcount_incr. by rewrite decide_False.
Qed.

Lemma dcount_foldl_decr_notin k ks (d : dict) :
  k ∉ ks -> dcount k (foldl (fun d k => decr k d) d ks) = dcount k d.
Proof.
  revert d. induction ks as [|k' ks IH]; intros d Hk; simpl; [done|].
  apply not_elem_of_cons in Hk as [Hne Hk].
  rewrite IH by done. rewrite dcount_decr. by rewrite decide_False.
Qed.

Lemma foldl_incr_wf ks (d : dict) :
  dict_wf d -> dict_wf (foldl (fun d k => incr k d) d ks).
Proof.
  revert d. induction ks as [|k ks IH]; intros d Hd; simpl; [done|].
  by apply IH, incr_wf.
Qed.

Lemma foldl_decr_wf ks (d : dict) :
  dict_wf d -> dict_wf (foldl (fun d k => decr k d) d ks).
Proof.
  revert d. induction ks as [|k ks IH]; intros d Hd; simpl; [done|].
  by apply IH, decr_wf.
Qed.

(** Both methods keep the count invariant, on every item sequence, whether
    they return or raise. *)
Lemma acquire_wf (items : list item) (g : guard) :
  guard_wf g -> guard_wf (after (LoopbackGuard.acquire items) g).
Proof.
  unfold guard_wf, after, mapping, LoopbackGuard.acquire. intros Hg.
  pose proof (for_each_invariant dict_wf
    (fun it : item => DefaultDict.iadd it 1) acquire_body_wf items) as Hloop.
  destruct (LoopbackGuard.locked_items g) as [d|]; simpl in *.
  - specialize (Hloop d Hg). by destruct (Py.for_each _ items d).
  - specialize (Hloop ∅ Hg). by destruct (Py.for_each _ items ∅).
Qed.

Lemma release_wf (items : list item) (g : guard) :
  guard_wf g -> guard_wf (after (LoopbackGuard.release items) g).
Proof.
  unfold guard_wf, after, mapping, LoopbackGuard.release. intros Hg.
  pose proof (for_each_invariant dict_wf release_body release_body_wf items)
    as Hloop.
  destruct (LoopbackGuard.locked_items g) as [d|] eqn:E; simpl in *.
  - specialize (Hloop d Hg). unfold release_body in Hloop.
    destruct (Py.for_each _ items d) as [[[]|e] d']; simpl in *; [|done].
    destruct (negb _); simpl; [apply dict_wf_empty|done].
  - by rewrite E.
Qed.

Lemma init_wf : guard_wf (LoopbackGuard.__init__ (K:=K)).
Proof. apply dict_wf_empty. Qed.

(** [item in guard] on a hashable item. *)
Lemma contains_hashable k (g : guard) :
  LoopbackGuard.__contains__ (U:=U) (Py.Hashable k) g
  = (Py.Return (bool_decide (is_Some (mapping g !! k))), g).
Proof.
  unfold LoopbackGuard.__contains__, mapping. destruct g as [[d|]]; simpl.
  - done.
  - rewrite lookup_empty, bool_decide_eq_false_2; [done|apply is_Some_None].
Qed.

Lemma contains_true_iff k (g : guard) :
  guard_wf g ->
  (answer (LoopbackGuard.__contains__ (U:=U) (Py.Hashable k)) g = Py.Return true
   <-> 1 <= count k g).
Proof.
  intros Hg. unfold answer. rewrite contains_hashable. simpl.
  rewrite <- (dcount_pos_iff k (mapping g) Hg).
  split.
  - intros [= E]. by apply bool_decide_eq_true in E.
  - intros E. by rewrite bool_decide_eq_true_2.
Qed.

End guard.

(** ** Counting acquisitions *)

Section counting.
Context `{Countable K} {U : Type}.
Local Abbreviation dict := (gmap K Z).
Local Abbreviation item := (Py.object K U).
Local Abbreviation guard := (LoopbackGuard.t K).
Local Abbreviation acquire := (LoopbackGuard.acquire (K:=K) (U:=U)).
Local Abbreviation release := (LoopbackGuard.release (K:=K) (U:=U)).
Local Abbreviation contains := (LoopbackGuard.__contains__ (K:=K) (U:=U)).

Lemma contains_false_iff k (g : guard) :
  guard_wf g ->
  (answer (contains (Py.Hashable k)) g = Py.Return false <-> count k g = 0).
Proof.
  intros Hg. pose proof (contains_true_iff (U:=U) k g Hg) as Ht.
  pose proof (dcount_nonneg k (mapping g) Hg) as Hn. fold (count k g) in Hn.
  unfold answer in *. rewrite contains_hashable in *. simpl in *.
  destruct (bool_decide _); split; intros E; try done.
  - assert (1 <= count k g) by (by apply Ht). lia.
  - destruct (decide (1 <= count k g)) as [Hc|Hc]; [|lia].
    apply Ht in Hc. discriminate.
Qed.

Lemma mapping_after_acquire ks (g : guard) :
  mapping (after (acquire (Py.Hashable <$> ks)) g)
  = foldl (fun d k => incr k d) (mapping g) ks.
Proof. unfold after. by rewrite acquire_hashable. Qed.

Lemma mapping_after_release ks (g : guard) :
  mapping (after (release (Py.Hashable <$> ks)) g)
  = foldl (fun d k => decr k d) (mapping g) ks.
Proof.
  unfold after. destruct (release_hashable (U:=U) ks g) as (g' & -> & E & _).
  done.
Qed.

Lemma answer_acquire ks (g : guard) :
  answer (acquire (Py.Hashable <$> ks)) g = Py.Return tt.
Proof. unfold answer. by rewrite acquire_hashable. Qed.

Lemma answer_release ks (g : guard) :
  answer (release (Py.Hashable <$> ks)) g = Py.Return tt.
Proof.
  unfold answer. by destruct (release_hashable (U:=U) ks g) as (g' & -> & _).
Qed.

(** One call on one key. *)
Lemma count_acquire_one k k' (g : guard) :
  count k' (after (acquire [Py.Hashable k]) g)
  = if decide (k = k') then count k' g + 1 else count k' g.
Proof.
  unfold count. rewrite (mapping_after_acquire [k]). simpl. apply dcount_incr.
Qed.

Lemma count_release_one k k' (g : guard) :
  count k' (after (release [Py.Hashable k]) g)
  = if decide (k = k') then Z.max 0 (count k' g - 1) else count k' g.
Proof.
  unfold count. rewrite (mapping_after_release [k]). simpl. apply dcount_decr.
Qed.

(** After [release] the mapping is allocated only if something is locked. *)
Lemma idle_after_release ks (g : guard) :
  guard_wf g ->
  (idle (after (release (Py.Hashable <$> ks)) g)
   <-> idle g \/ forall k, count k (after (release (Py.Hashable <$> ks)) g) = 0).
Proof.
  intros Hg. pose proof (release_wf (U:=U) (Py.Hashable <$> ks) g Hg) as Hwf.
  unfold after in *.
  destruct (release_hashable (U:=U) ks g) as (g' & E & _ & Hidle).
  rewrite E in *. simpl in *. rewrite Hidle.
  by rewrite (dict_empty_iff (mapping g') Hwf).
Qed.

Lemma not_idle_after_acquire (items : list item) (g : guard) :
  ~ idle (after (acquire items) g).
Proof.
  unfold idle, after, LoopbackGuard.acquire.
  by destruct (Py.for_each _ items _).
Qed.

(** [n] calls of [acquire([k])], then [j] calls of [release([k])]. *)
Lemma times_answer {S} n (call : Py.M S unit) (s : S) :
  (forall s', answer call s' = Py.Return tt) ->
  answer (times n call) s = Py.Return tt.
Proof.
  intros Hcall. revert s. induction n as [|n IH]; intros s; [done|].
  specialize (Hcall s). unfold answer in *. simpl. unfold Py.bind.
  destruct (call s) as [r s1]. simpl in Hcall. subst r. apply IH.
Qed.

Lemma times_after {S} n (call : Py.M S unit) (s : S) :
  (forall s', answer call s' = Py.Return tt) ->
  after (times n call) s = Nat.iter n (after call) s.
Proof.
  intros Hcall. revert s. induction n as [|n IH]; intros s; [done|].
  rewrite Nat.iter_succ_r. rewrite <- IH.
  specialize (Hcall s). unfold answer, after in *. simpl. unfold Py.bind.
  destruct (call s) as [r s1]. simpl in *. by subst r.
Qed.

Lemma seq_answer {S} (p q : Py.M S unit) (s : S) :
  answer p s = Py.Return tt ->
  answer (p ;; q)%py s = answer q (after p s)
  /\ after (p ;; q)%py s = after q (after p s).
Proof.
  unfold answer, after, Py.bind. destruct (p s) as [r s1]. simpl.
  by intros ->.
Qed.

Lemma count_iter_acquire k n (g : guard) :
  count k (Nat.iter n (after (acquire [Py.Hashable k])) g)
  = count k g + Z.of_nat n.
Proof.
  induction n as [|n IH]; simpl; [lia|].
  rewrite count_acquire_one, decide_True by done. lia.
Qed.

Lemma count_iter_release k n (g : guard) :
  count k (Nat.iter n (after (release [Py.Hashable k])) g)
  = Z.max 0 (count k g - Z.of_nat n) \/ (n = O).
Proof.
  induction n as [|n IH]; simpl; [by right|]. left.
  rewrite count_release_one, decide_True by done.
  destruct IH as [->| ->]; simpl; lia.
Qed.

Lemma count_iter_release_other k k' n (g : guard) :
  k ≠ k' ->
  count k' (Nat.iter n (after (release [Py.Hashable k])) g) = count k' g.
Proof.
  intros Hne. induction n as [|n IH]; simpl; [done|].
  by rewrite count_release_one, decide_False.
Qed.

Lemma iter_acquire_wf (it : item) n (g : guard) :
  guard_wf g -> guard_wf (Nat.iter n (after (acquire [it])) g).
Proof. intros Hg. induction n; simpl; [done|]. by apply acquire_wf. Qed.

Lemma iter_release_wf (it : item) n (g : guard) :
  guard_wf g -> guard_wf (Nat.iter n (after (release [it])) g).
Proof. intros Hg. induction n; simpl; [done|]. by apply release_wf. Qed.

End counting.

(** ** Properties of the guard *)

Section properties.
Context `{Countable K} {U : Type}.
Local Abbreviation dict := (gmap K Z).
Local Abbreviation item := (Py.object K U).
Local Abbreviation guard := (LoopbackGuard.t K).
Local Abbreviation acquire := (LoopbackGuard.acquire (K:=K) (U:=U)).
Local Abbreviation release := (LoopbackGuard.release (K:=K) (U:=U)).
Local Abbreviation contains := (LoopbackGuard.__contains__ (K:=K) (U:=U)).
Local Abbreviation fresh := (LoopbackGuard.__init__ (K:=K)).

Lemma count_fresh k : count k fresh = 0.
Proof. unfold count, mapping, dcount. simpl. by rewrite lookup_empty. Qed.

Lemma count_iter_acquire_other k k' n (g : guard) :
  k ≠ k' ->
  count k' (Nat.iter n (after (acquire [Py.Hashable k])) g) = count k' g.
Proof.
  intros Hne. induction n as [|n IH]; simpl; [done|].
  by rewrite count_acquire_one, decide_False.
Qed.

(** The guard after [n] calls of [acquire([k])] and [j] calls of
    [release([k])], starting fresh. *)
Lemma nested_then_released k (n j : nat) :
  let calls :=
    (times n (acquire [Py.Hashable k]) ;;
     times j (release [Py.Hashable k]))%py in
  let g :=
    Nat.iter j (after (release [Py.Hashable k]))
      (Nat.iter n (after (acquire [Py.Hashable k])) fresh) in
  answer calls fresh = Py.Return tt /\ after calls fresh = g /\ guard_wf g.
Proof.
  intros calls g.
  assert (forall s, answer (acquire [Py.Hashable k]) s = Py.Return tt) as Ha
    by (intros s; apply (answer_acquire [k])).
  assert (forall s, answer (release [Py.Hashable k]) s = Py.Return tt) as Hr
    by (intros s; apply (answer_release [k])).
  destruct (seq_answer (times n (acquire [Py.Hashable k]))
              (times j (release [Py.Hashable k])) fresh) as [E1 E2];
    [by apply times_answer|].
  unfold calls. rewrite E1, E2. rewrite !times_after by done.
  split; [by apply times_answer|]. split; [done|].
  apply iter_release_wf, iter_acquire_wf, init_wf.
Qed.

(** C1. Acquire/release symmetry: from a fresh guard, [n >= 1] calls of
    [acquire([k])] followed by [n] calls of [release([k])] all return, leave
    [k in guard] false and the guard idle ([locked_items] is [None]); after
    only [m < n] of the releases, [k in guard] is true. *)
Theorem acquire_release_symmetry (k : K) (n m : nat) :
  (1 <= n)%nat -> (m < n)%nat ->
  let calls j :=
    (times n (acquire [Py.Hashable k]) ;;
     times j (release [Py.Hashable k]))%py in
  answer (calls n) fresh = Py.Return tt
  /\ answer (contains (Py.Hashable k)) (after (calls n) fresh) = Py.Return false
  /\ idle (after (calls n) fresh)
  /\ answer (calls m) fresh = Py.Return tt
  /\ answer (contains (Py.Hashable k)) (after (calls m) fresh) = Py.Return true.
Proof.
  intros Hn Hm calls.
  destruct (nested_then_released k n n) as (An & En & Wn).
  destruct (nested_then_released k n m) as (Am & Em & Wm).
  fold (calls n) in An, En. fold (calls m) in Am, Em.
  set (ga := Nat.iter n (after (acquire [Py.Hashable k])) fresh) in *.
  assert (count k ga = Z.of_nat n) as Hka.
  { unfold ga. rewrite count_iter_acquire, count_fresh. lia. }
  assert (forall k', count k' (after (calls n) fresh) = 0) as Hzero.
  { intros k'. rewrite En. destruct (decide (k = k')) as [<-|Hne].
    - destruct (count_iter_release (U:=U) k n ga) as [->|?]; lia.
    - rewrite count_iter_release_other by done. unfold ga.
      rewrite count_iter_acquire_other by done. apply count_fresh. }
  split; [done|]. split.
  { apply contains_false_iff; [by rewrite En|apply Hzero]. }
  split.
  { destruct n as [|n']; [lia|]. revert Hzero. rewrite En. simpl.
    intros Hzero. apply (idle_after_release [k]); [|by right].
    apply iter_release_wf. unfold ga. apply iter_acquire_wf, init_wf. }
  split; [done|].
  apply contains_true_iff; [by rewrite Em|]. rewrite Em.
  destruct (count_iter_release (U:=U) k m ga) as [->| ->]; simpl; lia.
Qed.

(** C5. Every occurrence of a key in the item sequence counts: after
    [acquire([k, k])] on a fresh guard, one [release([k])] leaves
    [k in guard] true and a second one makes it false. *)
Theorem duplicates_counted_per_occurrence (k : K) :
  let g1 := after (acquire [Py.Hashable k; Py.Hashable k]) fresh in
  let g2 := after (release [Py.Hashable k]) g1 in
  let g3 := after (release [Py.Hashable k]) g2 in
  answer (acquire [Py.Hashable k; Py.Hashable k]) fresh = Py.Return tt
  /\ answer (release [Py.Hashable k]) g1 = Py.Return tt
  /\ answer (contains (Py.Hashable k)) g2 = Py.Return true
  /\ answer (release [Py.Hashable k]) g2 = Py.Return tt
  /\ answer (contains (Py.Hashable k)) g3 = Py.Return false.
Proof.
  intros g1 g2 g3.
  assert (guard_wf g1) as W1 by apply acquire_wf, init_wf.
  assert (guard_wf g2) as W2 by by apply release_wf.
  assert (guard_wf g3) as W3 by by apply release_wf.
  assert (count k g1 = 2) as C1.
  { unfold g1, count.
    change [Py.Hashable k; Py.Hashable k] with (Py.Hashable (U:=U) <$> [k; k]).
    rewrite mapping_after_acquire. simpl.
    rewrite !dcount_incr, !decide_True by done.
    fold (count k fresh). rewrite count_fresh. lia. }
  assert (count k g2 = 1) as C2.
  { unfold g2. rewrite count_release_one, decide_True by done. lia. }
  assert (count k g3 = 0) as C3.
  { unfold g3. rewrite count_release_one, decide_True by done. lia. }
  split; [apply (answer_acquire [k; k])|].
  split; [apply (answer_release [k])|].
  split; [apply contains_true_iff; [done|lia]|].
  split; [apply (answer_release [k])|].
  by apply contains_false_iff.
Qed.

(** C7. Keys are independent: [release] leaves the count of every key that
    is not among its items as it was; so, from a fresh guard, acquiring two
    distinct keys [a] and [b] and releasing [a] alone leaves [a in guard]
    false and [b in guard] true. *)
Theorem multi_key_independence (a b : K) :
  a ≠ b ->
  let g1 := after (acquire [Py.Hashable a; Py.Hashable b]) fresh in
  let g2 := after (release [Py.Hashable a]) g1 in
  answer (contains (Py.Hashable a)) g2 = Py.Return false
  /\ answer (contains (Py.Hashable b)) g2 = Py.Return true
  /\ (forall (g : guard) ks k,
        k ∉ ks -> count k (after (release (Py.Hashable <$> ks)) g) = count k g).
Proof.
  intros Hab g1 g2.
  assert (guard_wf g1) as W1 by apply acquire_wf, init_wf.
  assert (guard_wf g2) as W2 by by apply release_wf.
  assert (count a g1 = 1 /\ count b g1 = 1) as [Ca Cb].
  { unfold g1, count.
    change [Py.Hashable a; Py.Hashable b] with (Py.Hashable (U:=U) <$> [a; b]).
    rewrite mapping_after_acquire. simpl.
    rewrite !dcount_incr. fold (count a fresh) (count b fresh).
    rewrite !count_fresh. split; repeat case_decide; subst; try done; lia. }
  split.
  { apply contains_false_iff; [done|]. unfold g2.
    rewrite count_release_one, decide_True by done. lia. }
  split.
  { apply contains_true_iff; [done|]. unfold g2.
    rewrite count_release_one, decide_False by done. lia. }
  intros g ks k Hk. unfold count. rewrite mapping_after_release.
  by apply dcount_foldl_decr_notin.
Qed.

(** The invariant, spelled out on the slot. *)
Lemma guard_wf_iff (g : guard) :
  guard_wf g
  <-> forall d k v,
        LoopbackGuard.locked_items g = Some d -> d !! k = Some v -> 1 <= v.
Proof.
  unfold guard_wf, mapping, dict_wf, map_Forall.
  destruct g as [[d|]]; simpl; split.
  - intros Hd d' k v [= <-]. apply Hd.
  - intros Hd k v. by apply Hd.
  - by intros _ d k v.
  - intros _ k v. by rewrite lookup_empty.
Qed.

(** Subscripting the dictionary with an absent key does insert a zero
    count; the membership test of [__contains__] is another operation. *)
Lemma getitem_absent_inserts k (d : dict) :
  d !! k = None ->
  DefaultDict.__getitem__ (U:=U) (Py.Hashable k) d
  = (Py.Return 0, <[k := 0]> d).
Proof.
  intros E. unfold DefaultDict.__getitem__, Py.bind, Py.get. simpl.
  by rewrite E.
Qed.

(** C6. On a guard that obeys the count invariant, [k in guard] returns
    true exactly when the mapping is allocated and holds [k] with a count of
    at least one; on a fresh guard it is false for every key and the
    diagnostic view shows [None]. *)
Theorem contains_iff_locked (key_repr : K -> string) (g : guard) (k : K) :
  guard_wf g ->
  (exists b,
     contains (Py.Hashable k) g = (Py.Return b, g)
     /\ (b = true
         <-> exists d v,
               LoopbackGuard.locked_items g = Some d
               /\ d !! k = Some v /\ 1 <= v))
  /\ (forall k', contains (Py.Hashable k') fresh = (Py.Return false, fresh))
  /\ LoopbackGuard.repr_items fresh = None
  /\ LoopbackGuard.__repr__ key_repr fresh = "<LoopbackGuard: None>".
Proof.
  intros Hg. split; [|by repeat split].
  rewrite contains_hashable. eexists; split; [done|].
  rewrite bool_decide_eq_true. unfold mapping.
  pose proof (proj1 (guard_wf_iff g) Hg) as Hpos.
  destruct g as [[d|]]; simpl in *.
  - split.
    + intros [v E]. exists d, v. eauto.
    + intros (d' & v & [= <-] & E & _). eauto.
  - rewrite lookup_empty. split.
    + by intros [??].
    + by intros (d' & v & ? & _).
Qed.

(** C10. The membership test leaves the guard as it found it, whatever the
    item and whether the test returns or raises: no entry is inserted, the
    mapping is not allocated, the diagnostic view is the same. *)
Theorem contains_leaves_guard_unchanged
    (key_repr : K -> string) (g : guard) (it : item) :
  after (contains it) g = g
  /\ LoopbackGuard.locked_items (after (contains it) g)
     = LoopbackGuard.locked_items g
  /\ (forall k, count k (after (contains it) g) = count k g)
  /\ LoopbackGuard.__repr__ key_repr (after (contains it) g)
     = LoopbackGuard.__repr__ key_repr g.
Proof.
  assert (after (contains it) g = g) as E.
  { unfold after, LoopbackGuard.__contains__.
    destruct g as [[d|]]; simpl; [|done]. by destruct it. }
  by rewrite E.
Qed.

(** C4. On a guard that obeys the count invariant, [release] of a key whose
    count is zero returns and leaves the mapping the guard stands for as it
    was; one [release] of a key takes one off its count, stopping at zero,
    and touches no other count; and after any [acquire] or [release], on any
    items, returning or raising, every stored count is at least one. *)
Theorem release_of_unlocked_key (g : guard) (k : K) :
  guard_wf g ->
  (count k g = 0 ->
     answer (release [Py.Hashable k]) g = Py.Return tt
     /\ mapping (after (release [Py.Hashable k]) g) = mapping g)
  /\ (forall k',
        count k' (after (release [Py.Hashable k]) g)
        = if decide (k = k') then Z.max 0 (count k' g - 1) else count k' g)
  /\ (forall items : list item,
        guard_wf (after (acquire items) g)
        /\ guard_wf (after (release items) g)).
Proof.
  intros Hg. split; [|split].
  - intros Hk. split; [apply (answer_release [k])|].
    change [Py.Hashable k] with (Py.Hashable (U:=U) <$> [k]).
    rewrite mapping_after_release. simpl. unfold decr.
    fold (count k g). rewrite Hk. simpl. apply delete_id.
    destruct (mapping g !! k) as [v|] eqn:E; [|done].
    specialize (Hg k v E). unfold count, dcount in Hk. rewrite E in Hk.
    simpl in *. lia.
  - intros k'. apply count_release_one.
  - intros items. split; [by apply acquire_wf|by apply release_wf].
Qed.

(** *** Sequences of calls *)

Lemma perform_wf (c : call K U) (g : guard) : guard_wf g -> guard_wf (perform c g).2.
Proof. destruct c; [apply acquire_wf|apply release_wf]. Qed.

Lemma calls_wf (calls : list (call K U)) (g : guard) :
  guard_wf g -> guard_wf (after (Py.for_each perform calls) g).
Proof. apply (for_each_invariant guard_wf perform perform_wf). Qed.

(** A guard whose counts are all zero has nothing in its mapping: the slot
    is [None] or an empty dictionary. *)
Lemma counts_zero_mapping_empty (g : guard) :
  guard_wf g -> (forall k, count k g = 0) -> mapping g = ∅.
Proof. intros Hg Hz. by apply (dict_empty_iff (mapping g) Hg). Qed.

(** When [release] returns, it has left [None] or a non-empty mapping. *)
Lemma release_returns_collapsed (items : list item) (g g' : guard) :
  release items g = (Py.Return tt, g') ->
  LoopbackGuard.locked_items g' ≠ Some ∅.
Proof.
  unfold LoopbackGuard.release. destruct g as [[d|]]; simpl.
  - destruct (Py.for_each _ items d) as [[[]|e] d']; [|done].
    unfold DefaultDict.__bool__. rewrite negb_involutive.
    destruct (bool_decide (d' = ∅)) eqn:E.
    + by intros [= <-].
    + apply bool_decide_eq_false in E. intros [= <-]. simpl. congruence.
  - by intros [= <-].
Qed.

(** When [acquire] returns from a non-empty item sequence, the mapping is
    not empty. *)
Lemma acquire_loop_nonempty (items : list item) (d d' : dict) :
  items ≠ [] ->
  Py.for_each (fun it => DefaultDict.iadd it 1) items d = (Py.Return tt, d') ->
  d' ≠ ∅.
Proof.
  revert d. induction items as [|it items IH]; intros d Hne; [done|].
  simpl. unfold Py.bind. destruct it as [k|u].
  - rewrite acquire_body_hashable. destruct items as [|it' items'].
    + simpl. intros [= <-]. apply incr_nonempty.
    + by apply IH.
  - by rewrite acquire_body_unhashable.
Qed.

Lemma perform_keeps_collapsed (c : call K U) (g g' : guard) :
  is_empty_acquire c = false ->
  LoopbackGuard.locked_items g ≠ Some ∅ ->
  perform c g = (Py.Return tt, g') ->
  LoopbackGuard.locked_items g' ≠ Some ∅.
Proof.
  intros Hc _. destruct c as [items|items]; simpl.
  - unfold LoopbackGuard.acquire.
    destruct (Py.for_each _ items _) as [r d'] eqn:E.
    intros [= -> <-]. simpl. intros [= ->].
    apply acquire_loop_nonempty in E; [done|]. by destruct items.
  - apply release_returns_collapsed.
Qed.

Lemma idle_is_fresh (g : guard) : idle g -> g = fresh.
Proof. unfold idle. destruct g as [o]. simpl. by intros ->. Qed.

(** C3, as the code has it. Take calls of [acquire] and [release], made on
    a fresh guard one after the other and all returning, after which the
    count of every key is zero. If the last call is a [release], or if no
    [acquire] was given an empty item sequence, the guard is then the fresh
    guard again: [locked_items] is [None] and the diagnostic view is that of
    a fresh guard. *)
Theorem idle_collapse
    (key_repr : K -> string) (calls : list (call K U)) (g : guard) :
  Py.for_each perform calls fresh = (Py.Return tt, g) ->
  (forall k, count k g = 0) ->
  ends_with_release calls || no_empty_acquire calls = true ->
  idle g
  /\ g = fresh
  /\ LoopbackGuard.__repr__ key_repr g = LoopbackGuard.__repr__ key_repr fresh.
Proof.
  intros Hrun Hzero Hshape.
  assert (guard_wf g) as Hg.
  { pose proof (calls_wf calls fresh init_wf) as Hwf. unfold after in Hwf.
    by rewrite Hrun in Hwf. }
  pose proof (counts_zero_mapping_empty g Hg Hzero) as Hempty.
  assert (LoopbackGuard.locked_items g ≠ Some ∅) as Hcollapsed.
  { apply orb_true_iff in Hshape as [Hlast|Hacq].
    - unfold ends_with_release in Hlast.
      destruct (last calls) as [[items|items]|] eqn:El; try done.
      apply last_Some in El as [pre ->].
      rewrite for_each_app in Hrun. unfold Py.bind in Hrun.
      destruct (Py.for_each perform pre fresh) as [[[]|e] g0]; [|done].
      simpl in Hrun. unfold Py.bind in Hrun.
      destruct (release items g0) as [[[]|e] g1] eqn:Er; [|done].
      injection Hrun as <-. by apply (release_returns_collapsed items g0).
    - apply (for_each_returns
               (fun g : guard => LoopbackGuard.locked_items g ≠ Some ∅)
               (fun c => is_empty_acquire c = false) perform)
        with (xs := calls) (s := fresh); [| |done|done].
      + intros c s s' Hc Hs. by apply perform_keeps_collapsed.
      + apply Forall_forall. intros c Hin. unfold no_empty_acquire in Hacq.
        rewrite forallb_forall in Hacq. apply list_elem_of_In in Hin.
        specialize (Hacq c Hin). by destruct (is_empty_acquire c). }
  assert (idle g) as Hidle.
  { unfold idle, mapping in *. destruct g as [[d|]]; simpl in *; [|done].
    by subst d. }
  split; [done|]. split; [by apply idle_is_fresh|].
  by rewrite (idle_is_fresh g Hidle).
Qed.

(** *** Scopes *)

Local Abbreviation heap := (gmap Py.loc guard).
Local Abbreviation context := (LoopbackContext.t Py.loc item).
Local Abbreviation make_scope := (LoopbackGuard.__call__ (K:=K) (U:=U)).
Local Abbreviation enter_scope :=
  (LoopbackContext.__enter__ (H:=LoopbackGuard.guard (K:=K) (U:=U))).
Local Abbreviation exit_scope :=
  (LoopbackContext.__exit__ (H:=LoopbackGuard.guard (K:=K) (U:=U))).

Lemma invoke_live {A} (self : Py.loc) (method : Py.M guard A) (h : heap) g :
  h !! self = Some g ->
  Py.invoke self method h
  = (answer method g, <[self := after method g]> h).
Proof.
  intros E. unfold Py.invoke, answer, after. rewrite E.
  by destruct (method g).
Qed.

(** C9. Calling the guard to make a scope always returns, whatever the
    store holds and whatever the items are, the empty sequence and
    unhashable items included; the store, and with it the state and the
    diagnostic view of the guard, is as before; the context holds the guard
    and the items, in their order and with their repetitions, and those are
    the items that entering it hands to [acquire] and leaving it hands to
    [release]. *)
Theorem make_scope_records_items
    (key_repr : K -> string) (self : Py.loc) (items : list item) (h : heap) :
  exists ctx : context,
    make_scope self items h = (Py.Return ctx, h)
    /\ LoopbackContext._guard ctx = self
    /\ LoopbackContext._items ctx = items
    /\ enter_scope ctx = Py.invoke self (acquire items)
    /\ (forall exc,
          exit_scope ctx exc
          = (Py.invoke self (release items) ;; Py.ret false)%py)
    /\ after (make_scope self items) h = h
    /\ LoopbackGuard.locked_items <$> (after (make_scope self items) h !! self)
       = LoopbackGuard.locked_items <$> (h !! self)
    /\ LoopbackGuard.__repr__ key_repr
         <$> (after (make_scope self items) h !! self)
       = LoopbackGuard.__repr__ key_repr <$> (h !! self).
Proof. exists (LoopbackContext.__init__ self items). by repeat split. Qed.

(** [acquire] stops at the first unhashable item: the keys before it have
    been counted, the mapping is allocated, the items after it are not
    looked at. *)
Lemma acquire_raises_at_unhashable pre (u : U) (post : list item) (g : guard) :
  acquire ((Py.Hashable <$> pre) ++ Py.Unhashable u :: post) g
  = (Py.Raise Py.TypeError,
     LoopbackGuard.mk (Some (foldl (fun d k => incr k d) (mapping g) pre))).
Proof.
  unfold LoopbackGuard.acquire. rewrite for_each_app. unfold Py.bind.
  rewrite (for_each_hashable _ incr) by apply acquire_body_hashable.
  unfold mapping. by destruct (LoopbackGuard.locked_items g).
Qed.

Lemma first_unhashable (items : list item) (u : U) :
  Py.Unhashable u ∈ items ->
  exists pre u' post,
    items = (Py.Hashable <$> pre) ++ Py.Unhashable u' :: post.
Proof.
  induction items as [|it items IH]; intros Hin.
  - by apply elem_of_nil in Hin.
  - destruct it as [k|u0].
    + apply elem_of_cons in Hin as [?|Hin]; [done|].
      destruct (IH Hin) as (pre & u' & post & ->).
      by exists (k :: pre), u', post.
    + by exists [], u0, items.
Qed.

Lemma dcount_foldl_incr (k : K) ks (d : dict) :
  dcount k (foldl (fun d k => incr k d) d ks) = dcount k d + occurrences k ks.
Proof.
  revert d. induction ks as [|k' ks IH]; intros d; simpl; [lia|].
  rewrite IH, dcount_incr. case_decide; lia.
Qed.

(** C8, as the code has it. On an item sequence that holds an unhashable
    item, [acquire] raises [TypeError] and leaves the mapping allocated,
    with the keys that come before the first unhashable item counted, as
    often as they occur there, and nothing else changed; calling the guard
    to make a scope returns the context and leaves the store as it was, and
    the [TypeError] comes when that scope is entered. *)
Theorem unhashable_item_raises
    (self : Py.loc) (items : list item) (u : U) (g : guard) (h : heap) :
  Py.Unhashable u ∈ items ->
  h !! self = Some g ->
  answer (acquire items) g = Py.Raise Py.TypeError
  /\ ~ idle (after (acquire items) g)
  /\ (exists pre u' post,
        items = (Py.Hashable <$> pre) ++ Py.Unhashable u' :: post)
  /\ (forall pre u' post,
        items = (Py.Hashable <$> pre) ++ Py.Unhashable u' :: post ->
        mapping (after (acquire items) g)
        = foldl (fun d k => incr k d) (mapping g) pre
        /\ forall k,
             count k (after (acquire items) g)
             = count k g + occurrences k pre)
  /\ make_scope self items h
     = (Py.Return (LoopbackContext.__init__ self items), h)
  /\ answer (enter_scope (LoopbackContext.__init__ self items)) h
     = Py.Raise Py.TypeError
  /\ after (enter_scope (LoopbackContext.__init__ self items)) h
     = <[self := after (acquire items) g]> h.
Proof.
  intros Hin Hself.
  destruct (first_unhashable items u Hin) as (pre & u' & post & Eitems).
  assert (answer (acquire items) g = Py.Raise Py.TypeError) as Hraise.
  { rewrite Eitems. unfold answer. by rewrite acquire_raises_at_unhashable. }
  split; [done|]. split; [apply not_idle_after_acquire|].
  split; [by exists pre, u', post|]. split.
  { intros pre' u'' post' ->.
    assert (mapping (after (acquire ((Py.Hashable <$> pre')
                                       ++ Py.Unhashable u'' :: post')) g)
            = foldl (fun d k => incr k d) (mapping g) pre') as Hmap.
    { unfold after. by rewrite acquire_raises_at_unhashable. }
    split; [done|]. intros k. unfold count. rewrite Hmap.
    apply dcount_foldl_incr. }
  split; [done|].
  unfold LoopbackContext.__enter__. simpl. unfold answer, after.
  rewrite (invoke_live self _ h g Hself). simpl. by split.
Qed.

(** C2. A scope for two keys around a block, with the guard in the store.
    Entering the scope calls [acquire] on the guard with the two items.
    However the block ends, by returning or by raising, the statement ends
    the same way, and the store it leaves is the one the block left with
    one [release] of the same items applied to the guard. From an idle
    guard, and a block that leaves the guard as it found it, neither key is
    in the guard afterwards. *)
Theorem scope_releases_on_every_exit
    (self : Py.loc) (k1 k2 : K) (body : Py.M heap unit)
    (h h2 : heap) (g g2 : guard) (r : Py.outcome unit) :
  let items : list item := [Py.Hashable k1; Py.Hashable k2] in
  let ctx : context := LoopbackContext.__init__ self items in
  h !! self = Some g ->
  body (<[self := after (acquire items) g]> h) = (r, h2) ->
  h2 !! self = Some g2 ->
  enter_scope ctx h = (Py.Return tt, <[self := after (acquire items) g]> h)
  /\ (forall exc h',
        h' !! self = Some g2 ->
        exit_scope ctx exc h'
        = (Py.Return false, <[self := after (release items) g2]> h'))
  /\ Py.with_stmt ctx body h = (r, <[self := after (release items) g2]> h2)
  /\ (idle g ->
      g2 = after (acquire items) g ->
      idle (after (release items) g2)
      /\ answer (contains (Py.Hashable k1)) (after (release items) g2)
         = Py.Return false
      /\ answer (contains (Py.Hashable k2)) (after (release items) g2)
         = Py.Return false).
Proof.
  intros items ctx. subst ctx.
  assert (items = Py.Hashable <$> [k1; k2]) as Eitems by done.
  clearbody items. subst items. intros Hself Hbody Hself2.
  set (items := Py.Hashable (U:=U) <$> [k1; k2]) in *.
  set (ctx := LoopbackContext.__init__ self items).
  assert (enter_scope ctx h
          = (Py.Return tt, <[self := after (acquire items) g]> h)) as Henter.
  { unfold LoopbackContext.__enter__. simpl.
    rewrite (invoke_live self _ h g Hself).
    unfold items, Py.tuple. by rewrite answer_acquire. }
  assert (forall exc h',
            h' !! self = Some g2 ->
            exit_scope ctx exc h'
            = (Py.Return false, <[self := after (release items) g2]> h'))
    as Hexit.
  { intros exc h' Hh'. unfold LoopbackContext.__exit__, Py.bind. simpl.
    rewrite (invoke_live self _ h' g2 Hh').
    unfold items, Py.tuple. by rewrite answer_release. }
  split; [done|]. split; [done|]. split.
  - unfold Py.with_stmt.
    cbn [Py.enter Py.exit LoopbackContext.context_manager].
    rewrite Henter, Hbody.
    destruct r as [[]|e]; by rewrite Hexit.
  - intros Hidle ->.
    set (g1 := after (acquire items) g).
    set (g3 := after (release items) g1).
    assert (guard_wf g) as Wg by (rewrite (idle_is_fresh g Hidle); apply init_wf).
    assert (guard_wf g1) as W1 by by apply acquire_wf.
    assert (guard_wf g3) as W3 by by apply release_wf.
    assert (forall k, count k g3 = 0) as Hzero.
    { intros k. unfold g3, g1, count, items.
      rewrite mapping_after_release, mapping_after_acquire. simpl.
      rewrite (idle_is_fresh g Hidle).
      rewrite !dcount_decr, !dcount_incr. fold (count k fresh).
      rewrite count_fresh. repeat case_decide; lia. }
    split; [|split; by apply contains_false_iff].
    apply (idle_after_release [k1; k2]); [done|]. by right.
Qed.

End properties.

(** ** The guard at work *)

Lemma acquire_release_symmetry_witness :
  (1 <= 2)%nat /\ (1 < 2)%nat
  /\ let calls j :=
       (times 2 (LoopbackGuard.acquire [attr "x"]) ;;
        times j (LoopbackGuard.release [attr "x"]))%py in
     answer (calls 2%nat) fresh_guard = Py.Return tt
     /\ answer (LoopbackGuard.__contains__ (attr "x"))
          (after (calls 2%nat) fresh_guard) = Py.Return false
     /\ idle (after (calls 2%nat) fresh_guard)
     /\ answer (calls 1%nat) fresh_guard = Py.Return tt
     /\ answer (LoopbackGuard.__contains__ (attr "x"))
          (after (calls 1%nat) fresh_guard) = Py.Return true.
Proof.
  split; [lia|]. split; [lia|].
  apply (acquire_release_symmetry (U:=list string) "x" 2 1); lia.
Defined.

Lemma multi_key_independence_witness :
  "x" ≠ "y"
  /\ let g1 := after (LoopbackGuard.acquire [attr "x"; attr "y"]) fresh_guard in
     let g2 := after (LoopbackGuard.release [attr "x"]) g1 in
     answer (LoopbackGuard.__contains__ (attr "x")) g2 = Py.Return false
     /\ answer (LoopbackGuard.__contains__ (attr "y")) g2 = Py.Return true.
Proof.
  assert ("x" ≠ "y") as Hne by discriminate.
  split; [exact Hne|].
  destruct (multi_key_independence (U:=list string) "x" "y" Hne)
    as (Hx & Hy & _).
  split; [exact Hx|exact Hy].
Defined.

Lemma contains_iff_locked_witness :
  let g := after (LoopbackGuard.acquire [attr "x"]) fresh_guard in
  guard_wf g
  /\ exists b,
       LoopbackGuard.__contains__ (attr "x") g = (Py.Return b, g)
       /\ (b = true
           <-> exists d v,
                 LoopbackGuard.locked_items g = Some d
                 /\ d !! "x" = Some v /\ 1 <= v).
Proof.
  intros g.
  assert (guard_wf g) as Hg.
  { unfold guard_wf, dict_wf.
    apply (bool_decide_unpack (map_Forall _ _)). vm_compute. exact I. }
  split; [exact Hg|].
  exact (proj1 (contains_iff_locked (U:=list string) quoted g "x" Hg)).
Defined.

Lemma release_of_unlocked_key_witness :
  let g := after (LoopbackGuard.acquire [attr "y"]) fresh_guard in
  guard_wf g
  /\ count "x" g = 0
  /\ answer (LoopbackGuard.release [attr "x"]) g = Py.Return tt
  /\ mapping (after (LoopbackGuard.release [attr "x"]) g) = mapping g.
Proof.
  intros g.
  assert (guard_wf g) as Hg.
  { unfold guard_wf, dict_wf.
    apply (bool_decide_unpack (map_Forall _ _)). vm_compute. exact I. }
  assert (count "x" g = 0) as Hx by reflexivity.
  split; [exact Hg|]. split; [exact Hx|].
  exact (proj1 (release_of_unlocked_key (U:=list string) g "x" Hg) Hx).
Defined.

Lemma idle_collapse_witness :
  let calls :=
    [Acquire [attr "x"]; Acquire [attr "x"; attr "y"];
     Release [attr "y"; attr "x"]; Release [attr "x"]] in
  Py.for_each perform calls fresh_guard = (Py.Return tt, fresh_guard)
  /\ (forall k, count k fresh_guard = 0)
  /\ ends_with_release calls || no_empty_acquire calls = true
  /\ idle fresh_guard
  /\ LoopbackGuard.__repr__ quoted fresh_guard = "<LoopbackGuard: None>".
Proof.
  intros calls.
  assert (Py.for_each perform calls fresh_guard = (Py.Return tt, fresh_guard))
    as Hrun by (vm_compute; reflexivity).
  assert (forall k, count k fresh_guard = 0) as Hzero by (intros k; reflexivity).
  assert (ends_with_release calls || no_empty_acquire calls = true)
    as Hshape by reflexivity.
  split; [exact Hrun|]. split; [exact Hzero|]. split; [exact Hshape|].
  destruct (idle_collapse quoted calls fresh_guard Hrun Hzero Hshape)
    as (Hidle & _ & Hrepr).
  split; [exact Hidle|exact Hrepr].
Defined.

Lemma unhashable_item_raises_witness :
  let items := [attr "x"; attr "x"; a_list ["y"]; attr "z"] in
  a_list ["y"] ∈ items
  /\ store !! 1%positive = Some fresh_guard
  /\ answer (LoopbackGuard.acquire items) fresh_guard = Py.Raise Py.TypeError
  /\ ~ idle (after (LoopbackGuard.acquire items) fresh_guard)
  /\ count "x" (after (LoopbackGuard.acquire items) fresh_guard)
     = count "x" fresh_guard + occurrences "x" ["x"; "x"]
  /\ count "z" (after (LoopbackGuard.acquire items) fresh_guard)
     = count "z" fresh_guard + occurrences "z" ["x"; "x"]
  /\ LoopbackGuard.__call__ 1%positive items store
     = (Py.Return (LoopbackContext.__init__ 1%positive items), store)
  /\ answer (LoopbackContext.__enter__
               (LoopbackContext.__init__ 1%positive items)) store
     = Py.Raise Py.TypeError.
Proof.
  intros items.
  assert (a_list ["y"] ∈ items) as Hin.
  { apply list_elem_of_In. simpl. auto. }
  assert (store !! 1%positive = Some fresh_guard) as Hself by reflexivity.
  split; [exact Hin|]. split; [exact Hself|].
  destruct (unhashable_item_raises 1%positive items ["y"] fresh_guard store
              Hin Hself)
    as (Hraise & Hidle & _ & Hcount & Hscope & Henter & _).
  destruct (Hcount ["x"; "x"] ["y"] [attr "z"] eq_refl) as [_ Hc].
  split; [exact Hraise|]. split; [exact Hidle|].
  split; [exact (Hc "x")|]. split; [exact (Hc "z")|].
  split; [exact Hscope|exact Henter].
Defined.

Lemma scope_releases_on_every_exit_witness :
  let items := [attr "x"; attr "y"] in
  let ctx := LoopbackContext.__init__ 1%positive items in
  let boom : Py.M (gmap Py.loc (LoopbackGuard.t string)) unit :=
    Py.raise (Py.UserException "boom") in
  let g1 := after (LoopbackGuard.acquire items) fresh_guard in
  let h1 := <[1%positive := g1]> store in
  store !! 1%positive = Some fresh_guard
  /\ boom h1 = (Py.Raise (Py.UserException "boom"), h1)
  /\ h1 !! 1%positive = Some g1
  /\ Py.with_stmt ctx boom store
     = (Py.Raise (Py.UserException "boom"),
        <[1%positive := after (LoopbackGuard.release items) g1]> h1)
  /\ idle (after (LoopbackGuard.release items) g1)
  /\ answer (LoopbackGuard.__contains__ (attr "x"))
       (after (LoopbackGuard.release items) g1) = Py.Return false
  /\ answer (LoopbackGuard.__contains__ (attr "y"))
       (after (LoopbackGuard.release items) g1) = Py.Return false.
Proof.
  intros items ctx boom g1 h1.
  assert (store !! 1%positive = Some fresh_guard) as Hself by reflexivity.
  assert (boom h1 = (Py.Raise (Py.UserException "boom"), h1))
    as Hbody by reflexivity.
  assert (h1 !! 1%positive = Some g1) as Hself1 by reflexivity.
  split; [exact Hself|]. split; [exact Hbody|]. split; [exact Hself1|].
  destruct (scope_releases_on_every_exit (U:=list string) 1%positive "x" "y"
              boom store h1 fresh_guard g1 _ Hself Hbody Hself1)
    as (_ & _ & Hwith & Hafter).
  split; [exact Hwith|].
  apply Hafter; reflexivity.
Defined.

(** C3, as the spec has it, fails: [acquire] allocates the mapping before
    it looks at the items. Lock ['x'], release it, then enter the scope of
    no items, which calls [acquire(())]: every count is back at zero and
    the slot holds an empty dictionary, which the diagnostic view shows. *)
Lemma empty_acquire_leaves_empty_mapping :
  let calls : list (call string (list string)) :=
    [Acquire [attr "x"]; Release [attr "x"]; Acquire []] in
  let g := after (Py.for_each perform calls) fresh_guard in
  answer (Py.for_each perform calls) fresh_guard = Py.Return tt
  /\ (forall k, count k g = 0)
  /\ LoopbackGuard.locked_items g = Some ∅
  /\ ~ idle g
  /\ LoopbackGuard.__repr__ quoted g = "<LoopbackGuard: {}>"
  /\ LoopbackGuard.__repr__ quoted g
     ≠ LoopbackGuard.__repr__ quoted fresh_guard.
Proof.
  intros calls g.
  assert (Py.for_each perform calls fresh_guard
          = (Py.Return tt, LoopbackGuard.mk (Some ∅))) as Hrun
    by (vm_compute; reflexivity).
  unfold g, answer, after. rewrite Hrun. simpl.
  split; [reflexivity|]. split; [intros k; reflexivity|].
  split; [reflexivity|]. split; [discriminate|].
  split; [by vm_compute|]. by vm_compute.
Qed.

(** C8, as the spec has it, fails: making a scope for a list, which is
    unhashable, returns the context; nothing is raised. *)
Lemma make_scope_accepts_unhashable_item :
  let items := [a_list ["x"]] in
  a_list ["x"] ∈ items
  /\ LoopbackGuard.__call__ 1%positive items store
     = (Py.Return (LoopbackContext.__init__ 1%positive items), store)
  /\ (forall e,
        answer (LoopbackGuard.__call__ 1%positive items) store ≠ Py.Raise e).
Proof.
  intros items. split; [apply list_elem_of_In; simpl; auto|].
  split; [reflexivity|]. intros e. discriminate.
Qed.

(** ** More on the guard: counts, order, round trips *)

Section more_guard.
Context `{Countable K} {U : Type}.
Local Abbreviation dict := (gmap K Z).
Local Abbreviation item := (Py.object K U).
Local Abbreviation guard := (LoopbackGuard.t K).
Local Abbreviation acquire := (LoopbackGuard.acquire (K:=K) (U:=U)).
Local Abbreviation release := (LoopbackGuard.release (K:=K) (U:=U)).
Local Abbreviation contains := (LoopbackGuard.__contains__ (K:=K) (U:=U)).

Lemma occurrences_nonneg (k : K) ks : 0 <= occurrences k ks.
Proof. induction ks as [|k' ks IH]; simpl; [done|]. case_decide; lia. Qed.

Lemma occurrences_elem_of (k : K) ks : k ∈ ks -> 1 <= occurrences k ks.
Proof.
  induction ks as [|k' ks IH]; intros Hin; [by apply elem_of_nil in Hin|].
  simpl. pose proof (occurrences_nonneg k ks).
  apply elem_of_cons in Hin as [->|Hin].
  - rewrite decide_True by done. lia.
  - specialize (IH Hin). case_decide; lia.
Qed.

Lemma dcount_foldl_decr (k : K) ks (d : dict) :
  dict_wf d ->
  dcount k (foldl (fun d k => decr k d) d ks)
  = Z.max 0 (dcount k d - occurrences k ks).
Proof.
  revert d. induction ks as [|k' ks IH]; intros d Hd; simpl.
  - pose proof (dcount_nonneg k d Hd). lia.
  - rewrite IH by by apply decr_wf. rewrite dcount_decr.
    pose proof (dcount_nonneg k d Hd). pose proof (occurrences_nonneg k ks).
    case_decide; lia.
Qed.

(** Two mappings that obey the invariant and agree on every count are the
    same mapping. *)
Lemma dict_eq_by_count (d1 d2 : dict) :
  dict_wf d1 -> dict_wf d2 ->
  (forall k, dcount k d1 = dcount k d2) -> d1 = d2.
Proof.
  intros H1 H2 Hc. apply map_eq. intros k. specialize (Hc k).
  unfold dcount in Hc.
  destruct (d1 !! k) as [v1|] eqn:E1, (d2 !! k) as [v2|] eqn:E2;
    simpl in Hc; try done.
  - by subst.
  - specialize (H1 k v1 E1). simpl in H1. lia.
  - specialize (H2 k v2 E2). simpl in H2. lia.
Qed.

(** X1. [acquire] on hashable items returns and adds to the count of every
    key the number of times the key occurs among the items. *)
Theorem acquire_counts_occurrences (ks : list K) (g : guard) (k : K) :
  answer (acquire (Py.Hashable <$> ks)) g = Py.Return tt
  /\ count k (after (acquire (Py.Hashable <$> ks)) g)
     = count k g + occurrences k ks.
Proof.
  split; [apply answer_acquire|]. unfold count.
  rewrite mapping_after_acquire. apply dcount_foldl_incr.
Qed.

(** X2. On a guard that obeys the count invariant, [release] on hashable
    items returns and takes from the count of every key the number of times
    the key occurs among the items, stopping at zero. *)
Theorem release_counts_occurrences (ks : list K) (g : guard) (k : K) :
  guard_wf g ->
  answer (release (Py.Hashable <$> ks)) g = Py.Return tt
  /\ count k (after (release (Py.Hashable <$> ks)) g)
     = Z.max 0 (count k g - occurrences k ks).
Proof.
  intros Hg. split; [apply answer_release|]. unfold count.
  rewrite mapping_after_release. by apply dcount_foldl_decr.
Qed.

(** X3. Round trip: on a guard that obeys the count invariant, [acquire]
    followed by [release] of the same hashable items gives back the mapping
    the guard stood for; and the very same guard, unless its slot held an
    empty dictionary, which the [release] replaces by [None]. *)
Theorem acquire_release_round_trip (ks : list K) (g : guard) :
  guard_wf g ->
  let g' :=
    after (release (Py.Hashable <$> ks))
      (after (acquire (Py.Hashable <$> ks)) g) in
  mapping g' = mapping g
  /\ (LoopbackGuard.locked_items g ≠ Some ∅ -> g' = g)
  /\ (LoopbackGuard.locked_items g = Some ∅ -> g' = LoopbackGuard.mk None).
Proof.
  intros Hg g'.
  set (g1 := after (acquire (Py.Hashable <$> ks)) g) in *.
  assert (guard_wf g1) as W1 by by apply acquire_wf.
  assert (guard_wf g') as W' by by apply release_wf.
  assert (mapping g' = mapping g) as Hmap.
  { apply dict_eq_by_count; [done|done|]. intros k.
    unfold g', g1. rewrite mapping_after_release, mapping_after_acquire.
    rewrite dcount_foldl_decr by by apply foldl_incr_wf.
    rewrite dcount_foldl_incr.
    pose proof (dcount_nonneg k (mapping g) Hg). lia. }
  assert (LoopbackGuard.locked_items g' ≠ Some ∅) as Hcollapsed.
  { destruct (release (Py.Hashable <$> ks) g1) as [r g2] eqn:Er.
    pose proof (answer_release (U:=U) ks g1) as Hr. unfold answer in Hr.
    rewrite Er in Hr. simpl in Hr. subst r.
    replace g' with g2 by (unfold g', after; by rewrite Er).
    by apply (release_returns_collapsed (U:=U) (Py.Hashable <$> ks) g1). }
  split; [done|]. unfold mapping in Hmap.
  destruct g as [[d|]], g' as [[d'|]]; simpl in *; split; intros E;
    try done; congruence.
Qed.

End more_guard.

Section order_and_errors.
Context `{Countable K} {U : Type}.
Local Abbreviation dict := (gmap K Z).
Local Abbreviation item := (Py.object K U).
Local Abbreviation guard := (LoopbackGuard.t K).
Local Abbreviation acquire := (LoopbackGuard.acquire (K:=K) (U:=U)).
Local Abbreviation release := (LoopbackGuard.release (K:=K) (U:=U)).
Local Abbreviation contains := (LoopbackGuard.__contains__ (K:=K) (U:=U)).

Lemma foldl_permutation_comm {A B} (f : B -> A -> B) :
  (forall b x y, f (f b x) y = f (f b y) x) ->
  forall l1 l2, l1 ≡ₚ l2 -> forall b, foldl f b l1 = foldl f b l2.
Proof.
  intros Hf l1 l2 Hp. induction Hp as [|x l1 l2 _ IH|x y l|l1 l2 l3 _ IH1 _ IH2];
    intros b; simpl.
  - done.
  - apply IH.
  - by rewrite Hf.
  - by rewrite IH1.
Qed.

Lemma incr_comm (a b : K) (d : dict) : incr a (incr b d) = incr b (incr a d).
Proof.
  destruct (decide (a = b)) as [->|Hne]; [done|].
  unfold incr at 1 3. rewrite !dcount_incr, !decide_False by done.
  unfold incr. by apply insert_insert_ne.
Qed.

Lemma decr_comm (a b : K) (d : dict) : decr a (decr b d) = decr b (decr a d).
Proof.
  destruct (decide (a = b)) as [->|Hne]; [done|].
  unfold decr at 1 3. rewrite !dcount_decr, !decide_False by done.
  unfold decr.
  destruct (dcount a d - 1 <=? 0), (dcount b d - 1 <=? 0).
  - apply delete_delete.
  - by rewrite delete_insert_ne.
  - by rewrite delete_insert_ne.
  - by apply insert_insert_ne.
Qed.

(** X4. The order of the items does not matter to what can be asked of the
    guard: on two sequences of hashable items that are rearrangements of one
    another, [acquire], and [release], answer the same, leave every key with
    the same count and every membership test with the same answer, and
    leave the guard idle in the one case exactly when in the other. (The
    order in which the dictionary lists its keys is not compared.) *)
Theorem item_order_is_irrelevant (ks ks' : list K) (g : guard) :
  ks ≡ₚ ks' ->
  let ga := after (acquire (Py.Hashable <$> ks)) g in
  let ga' := after (acquire (Py.Hashable <$> ks')) g in
  let gr := after (release (Py.Hashable <$> ks)) g in
  let gr' := after (release (Py.Hashable <$> ks')) g in
  answer (acquire (Py.Hashable <$> ks)) g
  = answer (acquire (Py.Hashable <$> ks')) g
  /\ answer (release (Py.Hashable <$> ks)) g
     = answer (release (Py.Hashable <$> ks')) g
  /\ (forall k, count k ga = count k ga' /\ count k gr = count k gr')
  /\ (forall it : item,
        answer (contains it) ga = answer (contains it) ga'
        /\ answer (contains it) gr = answer (contains it) gr')
  /\ (idle gr <-> idle gr').
Proof.
  intros Hp ga ga' gr gr'.
  assert (acquire (Py.Hashable <$> ks) g = acquire (Py.Hashable <$> ks') g)
    as Ea.
  { rewrite !acquire_hashable. do 3 f_equal.
    apply foldl_permutation_comm; [|done]. intros d a b. apply incr_comm. }
  assert (release (Py.Hashable <$> ks) g = release (Py.Hashable <$> ks') g)
    as Er.
  { destruct g as [[d|]]; [|by rewrite !release_idle].
    rewrite !release_allocated. simpl.
    by rewrite (foldl_permutation_comm (fun d k => decr k d)
                  (fun d a b => decr_comm b a d) ks ks' Hp d). }
  unfold ga, ga', gr, gr', answer, after. rewrite Ea, Er. by repeat split.
Qed.

(** X5. An idle guard does not look at the items: [release] returns and
    the membership test answers false on any items, unhashable ones
    included, and the guard stays idle. Once the mapping is allocated, an
    unhashable item makes both raise [TypeError]. *)
Theorem idle_guard_ignores_items (items : list item) (it : item) (g : guard) :
  idle g ->
  release items g = (Py.Return tt, g)
  /\ contains it g = (Py.Return false, g)
  /\ (forall (d : dict) (u : U) (rest : list item),
        answer (contains (Py.Unhashable u)) (LoopbackGuard.mk (Some d))
        = Py.Raise Py.TypeError
        /\ answer (release (Py.Unhashable u :: rest)) (LoopbackGuard.mk (Some d))
           = Py.Raise Py.TypeError).
Proof.
  intros Hidle. split; [by apply release_idle|]. split.
  - unfold LoopbackGuard.__contains__. unfold idle in Hidle. by rewrite Hidle.
  - intros d u rest. by split.
Qed.

(** X6. On an allocated mapping, [release] stops at the first unhashable
    item with [TypeError]: the keys before it have been released, the items
    after it have not, and the mapping stays allocated, even when the keys
    released were the last ones in it. *)
Theorem release_raises_at_unhashable
    (pre : list K) (u : U) (post : list item) (d : dict) :
  release ((Py.Hashable <$> pre) ++ Py.Unhashable u :: post)
    (LoopbackGuard.mk (Some d))
  = (Py.Raise Py.TypeError,
     LoopbackGuard.mk (Some (foldl (fun d k => decr k d) d pre))).
Proof.
  unfold LoopbackGuard.release. simpl. rewrite for_each_app. unfold Py.bind.
  by rewrite (for_each_hashable _ decr) by apply (release_body_hashable (U:=U)).
Qed.

Lemma incr_keeps_present (k k' : K) (d : dict) :
  is_Some (d !! k) -> is_Some (incr k' d !! k).
Proof.
  intros Hk. unfold incr. rewrite lookup_insert. by case_decide.
Qed.

Lemma foldl_incr_keeps_present (k : K) ks (d : dict) :
  is_Some (d !! k) -> is_Some (foldl (fun d k => incr k d) d ks !! k).
Proof.
  revert d. induction ks as [|k' ks IH]; intros d Hk; simpl; [done|].
  by apply IH, incr_keeps_present.
Qed.

Lemma foldl_incr_present (k : K) ks (d : dict) :
  k ∈ ks -> is_Some (foldl (fun d k => incr k d) d ks !! k).
Proof.
  revert d. induction ks as [|k' ks IH]; intros d Hin; simpl.
  - by apply elem_of_nil in Hin.
  - apply elem_of_cons in Hin as [->|Hin]; [|by apply IH].
    apply foldl_incr_keeps_present. unfold incr. rewrite lookup_insert_eq.
    by eexists.
Qed.

(** X8. After [acquire] on hashable items the guard is not idle and every
    one of the items is in the guard, whatever the guard was before. *)
Theorem acquire_guards_every_item (ks : list K) (g : guard) (k : K) :
  k ∈ ks ->
  answer (contains (Py.Hashable k)) (after (acquire (Py.Hashable <$> ks)) g)
  = Py.Return true
  /\ ~ idle (after (acquire (Py.Hashable <$> ks)) g).
Proof.
  intros Hin. split; [|apply not_idle_after_acquire].
  unfold answer. rewrite contains_hashable. simpl.
  rewrite mapping_after_acquire. f_equal. apply bool_decide_eq_true_2.
  by apply foldl_incr_present.
Qed.

End order_and_errors.

(** ** More on scopes *)

Section more_scopes.
Context `{Countable K} {U : Type}.
Local Abbreviation dict := (gmap K Z).
Local Abbreviation item := (Py.object K U).
Local Abbreviation guard := (LoopbackGuard.t K).
Local Abbreviation heap := (gmap Py.loc guard).
Local Abbreviation context := (LoopbackContext.t Py.loc item).
Local Abbreviation acquire := (LoopbackGuard.acquire (K:=K) (U:=U)).
Local Abbreviation release := (LoopbackGuard.release (K:=K) (U:=U)).
Local Abbreviation contains := (LoopbackGuard.__contains__ (K:=K) (U:=U)).

(** The [with] statement on a scope of hashable items. *)
Lemma with_scope_hashable
    (self : Py.loc) (ks : list K) (body : Py.M heap unit)
    (h h2 : heap) (g g2 : guard) (r : Py.outcome unit) :
  let ctx : context := LoopbackContext.__init__ self (Py.Hashable <$> ks) in
  h !! self = Some g ->
  body (<[self := after (acquire (Py.Hashable <$> ks)) g]> h) = (r, h2) ->
  h2 !! self = Some g2 ->
  Py.with_stmt ctx body h
  = (r, <[self := after (release (Py.Hashable <$> ks)) g2]> h2).
Proof.
  intros ctx Hself Hbody Hself2. unfold Py.with_stmt.
  cbn [Py.enter Py.exit LoopbackContext.context_manager].
  unfold LoopbackContext.__enter__, LoopbackContext.__exit__, Py.bind.
  cbn [LoopbackContext._guard LoopbackContext._items ctx
       LoopbackContext.__init__ LoopbackContext.acquire
       LoopbackContext.release LoopbackGuard.guard].
  unfold Py.tuple. rewrite (invoke_live self _ h g Hself).
  rewrite answer_acquire, Hbody.
  destruct r as [[]|e]; rewrite (invoke_live self _ h2 g2 Hself2);
    by rewrite answer_release.
Qed.

Lemma foldl_decr_foldl_incr ks (d : dict) :
  dict_wf d ->
  foldl (fun d k => decr k d) (foldl (fun d k => incr k d) d ks) ks = d.
Proof.
  intros Hd. apply dict_eq_by_count; [|done|].
  - by apply foldl_decr_wf, foldl_incr_wf.
  - intros k. rewrite dcount_foldl_decr by by apply foldl_incr_wf.
    rewrite dcount_foldl_incr. pose proof (dcount_nonneg k d Hd). lia.
Qed.

(** X9. A scope whose items hold an unhashable one fails on entry with
    [TypeError]: the block is not run and nothing is released, so the keys
    that come before the unhashable item stay counted, and guarded, in the
    guard. *)
Theorem failed_entry_leaves_keys_guarded
    (self : Py.loc) (pre : list K) (u : U) (post : list item)
    (body : Py.M heap unit) (h : heap) (g : guard) :
  h !! self = Some g ->
  let items := (Py.Hashable <$> pre) ++ Py.Unhashable u :: post in
  let ctx : context := LoopbackContext.__init__ self items in
  let g' := LoopbackGuard.mk (Some (foldl (fun d k => incr k d) (mapping g) pre)) in
  Py.with_stmt ctx body h = (Py.Raise Py.TypeError, <[self := g']> h)
  /\ (forall k, count k g' = count k g + occurrences k pre)
  /\ (forall k,
        k ∈ pre -> answer (contains (Py.Hashable k)) g' = Py.Return true).
Proof.
  intros Hself items ctx g'. split; [|split].
  - unfold Py.with_stmt.
    cbn [Py.enter Py.exit LoopbackContext.context_manager].
    unfold LoopbackContext.__enter__.
    cbn [LoopbackContext._guard LoopbackContext._items ctx
         LoopbackContext.__init__ LoopbackContext.acquire
         LoopbackGuard.guard].
    unfold Py.tuple. rewrite (invoke_live self _ h g Hself).
    unfold answer, after, items. by rewrite acquire_raises_at_unhashable.
  - intros k. unfold count, g', mapping. simpl. apply dcount_foldl_incr.
  - intros k Hin. unfold answer. rewrite contains_hashable. simpl. f_equal.
    apply bool_decide_eq_true_2. unfold g', mapping. simpl.
    by apply foldl_incr_present.
Qed.

(** X10. Scopes nest: around a block that gives the guard back as it found
    it, a scope on hashable items ends the way the block ends and gives the
    guard back as it found it too; so it is itself such a block, and may sit
    inside another scope of the same guard, on the same keys or others. *)
Theorem scopes_nest (self : Py.loc) (ks : list K) (body : Py.M heap unit) :
  gives_guard_back self body ->
  let ctx : context := LoopbackContext.__init__ self (Py.Hashable <$> ks) in
  gives_guard_back self (Py.with_stmt ctx body)
  /\ (forall h g,
        h !! self = Some g -> guard_wf g ->
        answer (Py.with_stmt ctx body) h
        = answer body (<[self := after (acquire (Py.Hashable <$> ks)) g]> h)).
Proof.
  intros Hbody ctx.
  assert (forall h g,
            h !! self = Some g -> guard_wf g ->
            exists h2 g2,
              Py.with_stmt ctx body h
              = (answer body (<[self := after (acquire (Py.Hashable <$> ks)) g]> h),
                 <[self := after (release (Py.Hashable <$> ks)) g2]> h2)
              /\ mapping g2 = mapping (after (acquire (Py.Hashable <$> ks)) g)
              /\ guard_wf g2) as Hwith.
  { intros h g Hself Hg.
    set (g1 := after (acquire (Py.Hashable <$> ks)) g).
    assert (guard_wf g1) as W1 by by apply acquire_wf.
    destruct (Hbody (<[self := g1]> h) g1 (lookup_insert_eq _ _ _) W1)
      as (g2 & Hself2 & Hmap & W2).
    unfold after in Hself2. unfold answer.
    destruct (body (<[self := g1]> h)) as [r h2] eqn:Eb. simpl in *.
    exists h2, g2. split; [|done].
    by apply (with_scope_hashable self ks body h h2 g g2 r). }
  split.
  - intros h g Hself Hg. destruct (Hwith h g Hself Hg) as (h2 & g2 & E & Hmap & W2).
    exists (after (release (Py.Hashable <$> ks)) g2).
    unfold after at 1. rewrite E. simpl. rewrite lookup_insert_eq.
    split; [done|]. split; [|by apply release_wf].
    rewrite mapping_after_release, Hmap, mapping_after_acquire.
    by apply foldl_decr_foldl_incr.
  - intros h g Hself Hg. destruct (Hwith h g Hself Hg) as (h2 & g2 & E & _).
    unfold answer at 1. by rewrite E.
Qed.

(** X11. The diagnostic view tells an idle guard from any other: whatever
    the [repr] of the keys, [repr(guard)] is ['<LoopbackGuard: None>'] if and
    only if [locked_items] is [None]; an allocated mapping, even an empty
    one, prints as a dictionary in braces. *)
Theorem repr_none_iff_idle (key_repr : K -> string) (g : guard) :
  LoopbackGuard.__repr__ key_repr g = "<LoopbackGuard: None>" <-> idle g.
Proof.
  unfold idle, LoopbackGuard.__repr__, DefaultDict.repr.
  destruct g as [[d|]]; simpl; split; intros E; try done; discriminate.
Qed.

End more_scopes.

(** ** The names [load_ui] hands back for binding *)

Section ui_loader_facts.

Lemma truth_iff (name : string) : ui_loader.truth name = true <-> name ≠ "".
Proof. by destruct name. Qed.

Lemma counter_iadd_lookup (name name' : string) (c : gmap string Z) :
  Counter.__getitem__ name' (Counter.iadd name 1 c)
  = Counter.__getitem__ name' c + (if decide (name = name') then 1 else 0).
Proof.
  unfold Counter.iadd, Counter.__getitem__. rewrite lookup_insert.
  destruct (decide (name = name')) as [->|]; simpl; lia.
Qed.

(** The first loop, on the names themselves. *)
Lemma hist_count (names : list string) (name : string) (c : gmap string Z) :
  Counter.__getitem__ name
    (foldl (fun hist n => if ui_loader.truth n then Counter.iadd n 1 hist else hist)
       c names)
  = Counter.__getitem__ name c
    + (if ui_loader.truth name then occurrences name names else 0).
Proof.
  revert c. induction names as [|n names IH]; intros c; simpl.
  - destruct (ui_loader.truth name); lia.
  - rewrite IH. destruct (ui_loader.truth n) eqn:En.
    + rewrite counter_iadd_lookup.
      destruct (decide (n = name)) as [->|]; [rewrite En; lia|].
      destruct (ui_loader.truth name); lia.
    + destruct (decide (n = name)) as [->|]; [rewrite En; lia|].
      destruct (ui_loader.truth name); lia.
Qed.

Lemma hist_positive (names : list string) (c : gmap string Z) :
  map_Forall (fun _ v => 1 <= v) c ->
  map_Forall (fun _ v => 1 <= v)
    (foldl (fun hist n => if ui_loader.truth n then Counter.iadd n 1 hist else hist)
       c names).
Proof.
  revert c. induction names as [|n names IH]; intros c Hc; simpl; [done|].
  apply IH. destruct (ui_loader.truth n); [|done].
  apply map_Forall_insert_2; [|done]. unfold Counter.__getitem__.
  destruct (c !! n) as [v|] eqn:E; simpl; [|lia].
  specialize (Hc n v E). simpl in Hc. lia.
Qed.

(** The second loop, on any list of pairs. *)
Lemma names_to_bind_loop (items : list (string * Z)) (acc : list string)
    (name : string) :
  name ∈ foldl
           (fun names item =>
              let '(name, count) := item in
              if (count =? 1) && negb (ui_loader.startswith_underscore name)
              then names ++ [name] else names)
           acc items
  <-> name ∈ acc
      \/ ((name, 1) ∈ items /\ ui_loader.startswith_underscore name = false).
Proof.
  revert acc. induction items as [|[n c] items IH]; intros acc; simpl.
  - rewrite elem_of_nil. split; [by left|]. by intros [?|[[] _]].
  - rewrite IH, elem_of_cons.
    assert (name ∈ (if (c =? 1) && negb (ui_loader.startswith_underscore n)
                    then acc ++ [n] else acc)
            <-> name ∈ acc
                \/ ((name, 1) = (n, c)
                    /\ ui_loader.startswith_underscore name = false))
      as ->.
    { destruct (c =? 1) eqn:Ec; simpl.
      - apply Z.eqb_eq in Ec. subst c.
        destruct (ui_loader.startswith_underscore n) eqn:En; simpl.
        + split; [by left|]. intros [?|[E Hs]]; [done|].
          simplify_eq. congruence.
        + rewrite elem_of_app, list_elem_of_singleton. split.
          * intros [?| ->]; [by left|by right].
          * intros [?|[E _]]; [by left|]. simplify_eq. by right.
      - apply Z.eqb_neq in Ec. split; [by left|].
        intros [?|[E _]]; [done|]. by simplify_eq. }
    tauto.
Qed.

Lemma names_to_bind_loop_NoDup (items : list (string * Z)) (acc : list string) :
  NoDup (acc ++ items.*1) ->
  NoDup (foldl
           (fun names item =>
              let '(name, count) := item in
              if (count =? 1) && negb (ui_loader.startswith_underscore name)
              then names ++ [name] else names)
           acc items).
Proof.
  revert acc. induction items as [|[n c] items IH]; intros acc Hnd; simpl in *.
  - by rewrite app_nil_r in Hnd.
  - destruct ((c =? 1) && negb (ui_loader.startswith_underscore n)).
    + apply IH. by rewrite <- app_assoc.
    + apply IH. apply NoDup_app in Hnd as (Ha & Hdis & Hi).
      apply NoDup_cons in Hi as [_ Hi]. apply NoDup_app.
      split; [done|]. split; [|done]. intros x Hx Hx'.
      apply (Hdis x Hx). by right.
Qed.

Lemma names_to_bind_spec (hist : gmap string Z) (name : string) :
  name ∈ ui_loader.names_to_bind hist
  <-> hist !! name = Some 1 /\ ui_loader.startswith_underscore name = false.
Proof.
  unfold ui_loader.names_to_bind, Counter.items.
  rewrite names_to_bind_loop, elem_of_nil, elem_of_map_to_list. tauto.
Qed.

Lemma names_to_bind_NoDup (hist : gmap string Z) :
  NoDup (ui_loader.names_to_bind hist).
Proof.
  apply names_to_bind_loop_NoDup. simpl. apply NoDup_fst_map_to_list.
Qed.

End ui_loader_facts.

Section ui_loader_properties.

Lemma hist_lookup_one (names : list string) (name : string) :
  foldl (fun hist n => if ui_loader.truth n then Counter.iadd n 1 hist else hist)
    ∅ names !! name = Some 1
  <-> name ≠ "" /\ occurrences name names = 1.
Proof.
  pose proof (hist_count names name ∅) as Hc.
  pose proof (hist_positive names ∅ (map_Forall_empty _)) as Hp.
  rewrite <- truth_iff. unfold Counter.__getitem__ in Hc.
  rewrite lookup_empty in Hc. simpl in Hc.
  destruct (foldl _ ∅ names !! name) as [v|] eqn:E; simpl in Hc.
  - specialize (Hp name v E). simpl in Hp.
    destruct (ui_loader.truth name); split.
    + intros [= ->]. split; [done|lia].
    + intros [_ Ho]. f_equal. lia.
    + intros [= ->]. lia.
    + by intros [? _].
  - destruct (ui_loader.truth name); split; try done.
    + intros [_ Ho]. lia.
    + by intros [? _].
Qed.

Lemma recorded_names {Parent Layout Widget : Type}
    (createLayout : string -> Parent -> string -> Layout)
    (createWidget : string -> Parent -> string -> Widget)
    (requests : list (ui_loader.RecordingUiLoader.request (Parent:=Parent)))
    (loader : ui_loader.RecordingUiLoader.t) :
  ui_loader.RecordingUiLoader.names
    (foldl (ui_loader.RecordingUiLoader.serve createLayout createWidget)
       loader requests)
  = foldl (fun hist n => if ui_loader.truth n then Counter.iadd n 1 hist else hist)
      (ui_loader.RecordingUiLoader.names loader)
      (ui_loader.RecordingUiLoader.requested_name <$> requests).
Proof.
  revert loader. induction requests as [|r requests IH]; intros loader; [done|].
  simpl. rewrite IH. f_equal.
  destruct r as [c p n|c p n]; simpl; by destruct (ui_loader.truth n).
Qed.

(** X12. When the toolkit loads the file, the PyQt [load_ui] returns the
    loaded object with the names to bind: each listed once, and a name is
    listed exactly when it is not empty, is the object name of exactly one
    child, and does not start with an underscore. *)
Theorem load_ui_names {Ui QObject : Type}
    (loadUi : string -> Py.outcome Ui) (children : Ui -> list QObject)
    (objectName : QObject -> string) (path : string) (ui : Ui) :
  loadUi path = Py.Return ui ->
  exists names,
    ui_loader.pyqt.load_ui loadUi children objectName path
    = Py.Return (ui, names)
    /\ NoDup names
    /\ forall name,
         name ∈ names
         <-> name ≠ ""
             /\ occurrences name (objectName <$> children ui) = 1
             /\ ui_loader.startswith_underscore name = false.
Proof.
  intros Hload. eexists. unfold ui_loader.pyqt.load_ui. rewrite Hload.
  split; [done|]. split; [apply names_to_bind_NoDup|].
  intros name. rewrite names_to_bind_spec. unfold ui_loader.pyqt.names_hist.
  rewrite <- (foldl_fmap
    (fun hist n => if ui_loader.truth n then Counter.iadd n 1 hist else hist)
    ∅ (children ui) objectName).
  rewrite hist_lookup_one. tauto.
Qed.

(** X13. The histogram of the PyQt branch holds, for every non-empty name,
    the number of children that bear it, and nothing else: children without
    a name are not counted, and no count below one is stored. *)
Theorem names_hist_counts_children {Ui QObject : Type}
    (children : Ui -> list QObject) (objectName : QObject -> string)
    (ui : Ui) (name : string) :
  Counter.__getitem__ name (ui_loader.pyqt.names_hist children objectName ui)
  = (if ui_loader.truth name
     then occurrences name (objectName <$> children ui) else 0)
  /\ ui_loader.pyqt.names_hist children objectName ui !! "" = None
  /\ (forall count,
        ui_loader.pyqt.names_hist children objectName ui !! name = Some count ->
        1 <= count /\ count = occurrences name (objectName <$> children ui)).
Proof.
  unfold ui_loader.pyqt.names_hist.
  rewrite <- (foldl_fmap
    (fun hist n => if ui_loader.truth n then Counter.iadd n 1 hist else hist)
    ∅ (children ui) objectName).
  set (names := objectName <$> children ui).
  pose proof (hist_positive names ∅ (map_Forall_empty _)) as Hp.
  assert (forall n,
            Counter.__getitem__ n
              (foldl (fun hist n => if ui_loader.truth n
                                    then Counter.iadd n 1 hist else hist)
                 ∅ names)
            = if ui_loader.truth n then occurrences n names else 0) as Hc.
  { intros n. rewrite hist_count. unfold Counter.__getitem__.
    rewrite lookup_empty. simpl. destruct (ui_loader.truth n); lia. }
  split; [apply Hc|]. split.
  - specialize (Hc ""). unfold Counter.__getitem__ in Hc. simpl in Hc.
    destruct (foldl _ ∅ names !! "") as [v|] eqn:E; [|done].
    specialize (Hp "" v E). simpl in *. lia.
  - intros count E. specialize (Hc name). specialize (Hp name count E).
    unfold Counter.__getitem__ in Hc. rewrite E in Hc. simpl in *.
    destruct (ui_loader.truth name); lia.
Qed.

(** X14. The recording loader of the PySide branch, after serving any
    requests for layouts and widgets, reports each name to bind once: the
    non-empty names, not starting with an underscore, that were asked for
    exactly once, layouts and widgets counted together. These are the names
    the PyQt branch computes for children bearing the requested names. *)
Theorem recording_loader_names {Parent Layout Widget : Type}
    (createLayout : string -> Parent -> string -> Layout)
    (createWidget : string -> Parent -> string -> Widget)
    (requests : list (ui_loader.RecordingUiLoader.request (Parent:=Parent))) :
  let loader :=
    foldl (ui_loader.RecordingUiLoader.serve createLayout createWidget)
      ui_loader.RecordingUiLoader.__init__ requests in
  NoDup (ui_loader.RecordingUiLoader.to_be_bound loader)
  /\ (forall name,
        name ∈ ui_loader.RecordingUiLoader.to_be_bound loader
        <-> name ≠ ""
            /\ occurrences name
                 (ui_loader.RecordingUiLoader.requested_name <$> requests) = 1
            /\ ui_loader.startswith_underscore name = false)
  /\ ui_loader.RecordingUiLoader.to_be_bound loader
     = ui_loader.names_to_bind
         (ui_loader.pyqt.names_hist id
            ui_loader.RecordingUiLoader.requested_name requests).
Proof.
  intros loader. unfold ui_loader.RecordingUiLoader.to_be_bound, loader.
  rewrite recorded_names. simpl.
  split; [apply names_to_bind_NoDup|]. split.
  - intros name. rewrite names_to_bind_spec, hist_lookup_one. tauto.
  - unfold ui_loader.pyqt.names_hist, id.
    by rewrite <- (foldl_fmap
      (fun hist n => if ui_loader.truth n then Counter.iadd n 1 hist else hist)
      ∅ requests ui_loader.RecordingUiLoader.requested_name).
Qed.

Lemma occurrences_permutation `{EqDecision A} (x : A) (l l' : list A) :
  l ≡ₚ l' -> occurrences x l = occurrences x l'.
Proof.
  intros Hp. induction Hp as [|y l l' _ IH|y z l|l1 l2 l3 _ IH1 _ IH2]; simpl.
  - done.
  - by rewrite IH.
  - lia.
  - by rewrite IH1.
Qed.

(** X15. The names to bind do not depend on the order in which the toolkit
    lists the children: two loaded objects whose children bear the same
    names, in any order, get the same names to bind, up to their order. *)
Theorem names_independent_of_child_order {Ui QObject : Type}
    (children : Ui -> list QObject) (objectName : QObject -> string)
    (ui ui' : Ui) :
  objectName <$> children ui ≡ₚ objectName <$> children ui' ->
  ui_loader.names_to_bind (ui_loader.pyqt.names_hist children objectName ui)
  ≡ₚ ui_loader.names_to_bind
       (ui_loader.pyqt.names_hist children objectName ui').
Proof.
  intros Hp. apply NoDup_Permutation; [apply names_to_bind_NoDup..|].
  intros name. rewrite !names_to_bind_spec. unfold ui_loader.pyqt.names_hist.
  rewrite <- !(foldl_fmap
    (fun hist n => if ui_loader.truth n then Counter.iadd n 1 hist else hist)
    ∅ _ objectName).
  rewrite !hist_lookup_one. by rewrite (occurrences_permutation name _ _ Hp).
Qed.

End ui_loader_properties.

(** ** The further properties at work *)

Lemma release_counts_occurrences_witness :
  let g := after (LoopbackGuard.acquire [attr "x"; attr "x"]) fresh_guard in
  let items : list (Py.object string (list string)) :=
    Py.Hashable <$> ["x"; "y"; "x"; "x"] in
  guard_wf g
  /\ answer (LoopbackGuard.release items) g = Py.Return tt
  /\ count "x" (after (LoopbackGuard.release items) g)
     = Z.max 0 (count "x" g - occurrences "x" ["x"; "y"; "x"; "x"]).
Proof.
  intros g items.
  assert (guard_wf g) as Hg.
  { unfold guard_wf, dict_wf.
    apply (bool_decide_unpack (map_Forall _ _)). vm_compute. exact I. }
  split; [exact Hg|].
  exact (release_counts_occurrences (U:=list string)
           ["x"; "y"; "x"; "x"] g "x" Hg).
Defined.

Lemma acquire_release_round_trip_witness :
  let g := after (LoopbackGuard.acquire [attr "x"; attr "x"]) fresh_guard in
  let items : list (Py.object string (list string)) :=
    Py.Hashable <$> ["x"; "y"] in
  guard_wf g
  /\ LoopbackGuard.locked_items g ≠ Some ∅
  /\ after (LoopbackGuard.release items) (after (LoopbackGuard.acquire items) g)
     = g.
Proof.
  intros g items.
  assert (guard_wf g) as Hg.
  { unfold guard_wf, dict_wf.
    apply (bool_decide_unpack (map_Forall _ _)). vm_compute. exact I. }
  assert (LoopbackGuard.locked_items g ≠ Some ∅) as Hne.
  { apply (bool_decide_unpack (_ ≠ _)). vm_compute. exact I. }
  split; [exact Hg|]. split; [exact Hne|].
  exact (proj1 (proj2 (acquire_release_round_trip (U:=list string)
                         ["x"; "y"] g Hg)) Hne).
Defined.

Lemma item_order_is_irrelevant_witness :
  let g := after (LoopbackGuard.acquire [attr "x"]) fresh_guard in
  let xy : list (Py.object string (list string)) := Py.Hashable <$> ["x"; "y"] in
  let yx : list (Py.object string (list string)) := Py.Hashable <$> ["y"; "x"] in
  ["x"; "y"] ≡ₚ ["y"; "x"]
  /\ answer (LoopbackGuard.acquire xy) g = answer (LoopbackGuard.acquire yx) g
  /\ count "x" (after (LoopbackGuard.acquire xy) g)
     = count "x" (after (LoopbackGuard.acquire yx) g)
  /\ count "y" (after (LoopbackGuard.release xy) g)
     = count "y" (after (LoopbackGuard.release yx) g)
  /\ (idle (after (LoopbackGuard.release xy) g)
      <-> idle (after (LoopbackGuard.release yx) g)).
Proof.
  intros g xy yx.
  assert (["x"; "y"] ≡ₚ ["y"; "x"]) as Hp by apply perm_swap.
  split; [exact Hp|].
  destruct (item_order_is_irrelevant (U:=list string) ["x"; "y"] ["y"; "x"] g Hp)
    as (Ha & _ & Hc & _ & Hi).
  split; [exact Ha|]. split; [exact (proj1 (Hc "x"))|].
  split; [exact (proj2 (Hc "y"))|exact Hi].
Defined.

Lemma idle_guard_ignores_items_witness :
  idle fresh_guard
  /\ LoopbackGuard.release [a_list ["x"]; attr "y"] fresh_guard
     = (Py.Return tt, fresh_guard)
  /\ LoopbackGuard.__contains__ (a_list ["x"]) fresh_guard
     = (Py.Return false, fresh_guard).
Proof.
  assert (idle fresh_guard) as Hidle by reflexivity.
  split; [exact Hidle|].
  destruct (idle_guard_ignores_items [a_list ["x"]; attr "y"] (a_list ["x"])
              fresh_guard Hidle) as (Hr & Hc & _).
  split; [exact Hr|exact Hc].
Defined.

Lemma acquire_guards_every_item_witness :
  let items : list (Py.object string (list string)) :=
    Py.Hashable <$> ["x"; "y"] in
  "y" ∈ ["x"; "y"]
  /\ answer (LoopbackGuard.__contains__ (attr "y"))
       (after (LoopbackGuard.acquire items) fresh_guard) = Py.Return true
  /\ ~ idle (after (LoopbackGuard.acquire items) fresh_guard).
Proof.
  intros items.
  assert ("y" ∈ ["x"; "y"]) as Hin by (apply list_elem_of_In; simpl; auto).
  split; [exact Hin|].
  exact (acquire_guards_every_item (U:=list string) ["x"; "y"] fresh_guard "y"
           Hin).
Defined.

Lemma failed_entry_leaves_keys_guarded_witness :
  let items := (Py.Hashable <$> ["x"]) ++ a_list ["y"] :: [attr "z"] in
  let ctx := LoopbackContext.__init__ 1%positive items in
  let g' :=
    LoopbackGuard.mk (Some (foldl (fun d k => incr k d) (mapping fresh_guard) ["x"])) in
  store !! 1%positive = Some fresh_guard
  /\ Py.with_stmt ctx (Py.ret tt) store
     = (Py.Raise Py.TypeError, <[1%positive := g']> store)
  /\ answer (LoopbackGuard.__contains__ (attr "x")) g' = Py.Return true.
Proof.
  intros items ctx g'.
  assert (store !! 1%positive = Some fresh_guard) as Hself by reflexivity.
  split; [exact Hself|].
  destruct (failed_entry_leaves_keys_guarded (U:=list string) 1%positive
              ["x"] ["y"] [attr "z"] (Py.ret tt) store fresh_guard Hself)
    as (Hwith & _ & Hin).
  split; [exact Hwith|]. apply Hin. apply list_elem_of_In. simpl. auto.
Defined.

Lemma scopes_nest_witness :
  let boom : Py.M (gmap Py.loc (LoopbackGuard.t string)) unit :=
    Py.raise (Py.UserException "boom") in
  let ctx : LoopbackContext.t Py.loc (Py.object string (list string)) :=
    LoopbackContext.__init__ 1%positive (Py.Hashable <$> ["x"]) in
  gives_guard_back 1%positive boom
  /\ gives_guard_back 1%positive (Py.with_stmt ctx boom)
  /\ gives_guard_back 1%positive (Py.with_stmt ctx (Py.with_stmt ctx boom)).
Proof.
  intros boom ctx.
  assert (gives_guard_back 1%positive boom) as Hboom.
  { intros h g Hself Hg. exists g. split; [exact Hself|]. split; [reflexivity|exact Hg]. }
  pose proof (proj1 (scopes_nest (U:=list string) 1%positive ["x"] boom Hboom))
    as Hone.
  split; [exact Hboom|]. split; [exact Hone|].
  exact (proj1 (scopes_nest (U:=list string) 1%positive ["x"]
                  (Py.with_stmt ctx boom) Hone)).
Defined.

Lemma load_ui_names_witness :
  let loadUi (path : string) : Py.outcome (list string) :=
    Py.Return ["ok"; "_private"; "twice"; ""; "twice"] in
  loadUi "main.ui" = Py.Return ["ok"; "_private"; "twice"; ""; "twice"]
  /\ exists names,
       ui_loader.pyqt.load_ui loadUi id id "main.ui"
       = Py.Return (["ok"; "_private"; "twice"; ""; "twice"], names)
       /\ NoDup names
       /\ forall name,
            name ∈ names
            <-> name ≠ ""
                /\ occurrences name
                     (id <$> id ["ok"; "_private"; "twice"; ""; "twice"]) = 1
                /\ ui_loader.startswith_underscore name = false.
Proof.
  intros loadUi. split; [reflexivity|].
  exact (load_ui_names loadUi id id "main.ui"
           ["ok"; "_private"; "twice"; ""; "twice"] eq_refl).
Defined.

Lemma names_independent_of_child_order_witness :
  id <$> id ["a"; "b"; "a"; "c"] ≡ₚ id <$> id ["c"; "a"; "b"; "a"]
  /\ ui_loader.names_to_bind
       (ui_loader.pyqt.names_hist id id ["a"; "b"; "a"; "c"])
     ≡ₚ ui_loader.names_to_bind
          (ui_loader.pyqt.names_hist id id ["c"; "a"; "b"; "a"]).
Proof.
  assert (id <$> id ["a"; "b"; "a"; "c"] ≡ₚ id <$> id ["c"; "a"; "b"; "a"])
    as Hp.
  { simpl. unfold id. symmetry.
    apply (Permutation_cons_append ["a"; "b"; "a"] "c"). }
  split; [exact Hp|].
  exact (names_independent_of_child_order id id _ _ Hp).
Defined.
